(** * Salesforce trigger V2: the watermark poller

    A shallow embedding of [router]
    (src/nodes/CustomSalesforce/v2/triggers/router.ts) and the properties
    of its checkpoint handling, filter construction and selector decoding;
    then of the trigger node that calls it (its declared selectors and
    [getCustomObjects]), of the owner lists and custom-object requests of
    the action node, and of the case conversion ([split], [noCase],
    [snakeCase]).

    Strings are Rocq strings read as sequences of code units; the model
    covers the ASCII range, which holds every declared value of the
    [triggerOn] option.  JSON objects ([IDataObject]) are finite maps from
    property names to string values. *)

From Stdlib Require Import ZArith Ascii String List Bool Lia Sorted.
From stdpp Require Import base option gmap strings list fin_maps.

Local Open Scope string_scope.
Local Open Scope Z_scope.

(** ** JavaScript string primitives used by the router *)

Module JS.

(** Relative index resolution of [String.prototype.slice]: a negative
    index counts from the end, and the result is clamped to [0, len]. *)
Definition relative_index (len k : Z) : Z :=
  if k <? 0 then Z.max (len + k) 0 else Z.min k len.

(** [s.slice(from, to)]; [to = None] is the omitted second argument. *)
Definition slice (s : string) (from : Z) (to : option Z) : string :=
  let len := Z.of_nat (String.length s) in
  let b := relative_index len from in
  let e := match to with
           | Some k => relative_index len k
           | None => len
           end in
  String.substring (Z.to_nat b) (Z.to_nat (Z.max (e - b) 0)) s.

(** [toUpperCase] on one ASCII code unit; code units outside ASCII are
    not covered (the program maps them by the Unicode tables). *)
Definition upper_ascii (c : ascii) : ascii :=
  let n := nat_of_ascii c in
  if ((97 <=? n) && (n <=? 122))%nat then ascii_of_nat (n - 32) else c.

Fixpoint toUpperCase (s : string) : string :=
  match s with
  | EmptyString => EmptyString
  | String c r => String (upper_ascii c) (toUpperCase r)
  end.

(** Truthiness of a property read as a string: [undefined] and the empty
    string are falsy. *)
Definition truthy (v : option string) : bool :=
  match v with
  | Some s => negb (String.eqb s "")
  | None => false
  end.

(** [v || d] for a string-valued property. *)
Definition or_else (v : option string) (d : string) : string :=
  match v with
  | Some s => if String.eqb s "" then d else s
  | None => d
  end.

End JS.

(** ** Selector decoding (router.ts lines 16-22) *)

(** [triggerOn.slice(0, 1).toUpperCase() + triggerOn.slice(1, -7)] *)
Definition decodedResource (triggerOn : string) : string :=
  String.append (JS.toUpperCase (JS.slice triggerOn 0 (Some 1)))
                (JS.slice triggerOn 1 (Some (-7))).

(** [triggerOn.slice(-7)] *)
Definition changeType (triggerOn : string) : string :=
  JS.slice triggerOn (-7) None.

(** The resource after the custom-object substitution. *)
Definition triggerResource (triggerOn customObject : string) : string :=
  if String.eqb (decodedResource triggerOn) "CustomObject"
  then customObject
  else decodedResource triggerOn.

(** ** Data of the trigger *)

(** A JSON object with string-valued properties. *)
Abbreviation IDataObject := (gmap string string).

(** One entry of [options.conditionsUi.conditionValues]. *)
Record Condition := mkCondition {
  field : string;
  operation : string;
  value : string
}.

(** The [options] object handed to the query builder; the router only
    fills [conditionsUi.conditionValues]. *)
Record QueryOptions := mkOptions {
  conditionValues : list Condition
}.

Record INodeExecutionData := mkItem {
  json : IDataObject
}.

(** What can be thrown: whatever a collaborator raised, or the
    [NodeApiError] the router wraps it in together with [this.getNode()]. *)
Inductive Exception : Type :=
| CollaboratorError (description : string)
| NodeApiError (node : string) (cause : Exception).

Inductive Outcome (A : Type) : Type :=
| Returned (a : A)
| Thrown (e : Exception).
Arguments Returned {A} a.
Arguments Thrown {A} e.

(** Calls that leave the router, in program order. *)
Inductive Event : Type :=
| GetQuery (options : QueryOptions) (sobject : string) (returnAll : bool)
           (limit : option Z)
| ApiRequestAllItems (propertyName method endpoint : string)
                     (body qs : IDataObject)
| LoggerError (node workflowId : option string) (error : Exception).

(** The host side of one trigger instance: the node's static data, which
    holds the checkpoint under [lastTimeChecked], and the calls made so far. *)
Record Host := mkHost {
  staticData : IDataObject;
  calls : list Event
}.

(** The execution context [this] of one poll.  [getNodeParameter] gives
    the resolved value of a node parameter, [now] is the reading of
    [DateTime.now().toISO()], [salesforceApiRequestAllItems] is what the
    paged fetcher (imported from utils/GenericFunctions, called on [this])
    answers during this poll, and [returnJsonArray] is the host's
    [this.helpers.returnJsonArray], which turns objects into items. *)
Record IPollFunctions := mkPoll {
  getNodeParameter : string -> string;
  getMode : string;
  getNode : string;
  now : string;
  salesforceApiRequestAllItems :
    string -> string -> string -> IDataObject -> IDataObject ->
    Outcome (list IDataObject);
  returnJsonArray : list IDataObject -> list INodeExecutionData
}.

Definition checkpoint (h : Host) : option string :=
  staticData h !! "lastTimeChecked".

(** ** State and exceptions *)

Module Eff.

Definition M (A : Type) : Type := Host -> Outcome A * Host.

Definition ret {A} (a : A) : M A := fun h => (Returned a, h).

Definition bind {A B} (m : M A) (k : A -> M B) : M B :=
  fun h =>
    match m h with
    | (Returned a, h') => k a h'
    | (Thrown e, h') => (Thrown e, h')
    end.

Definition throw {A} (e : Exception) : M A := fun h => (Thrown e, h).

(** [try { m } catch (error) { handler }]: writes made before the throw
    stay in place. *)
Definition try_catch {A} (m : M A) (handler : Exception -> M A) : M A :=
  fun h =>
    match m h with
    | (Returned a, h') => (Returned a, h')
    | (Thrown e, h') => handler e h'
    end.

Definition readStatic (key : string) : M (option string) :=
  fun h => (Returned (staticData h !! key), h).

Definition writeStatic (key v : string) : M unit :=
  fun h => (Returned tt, mkHost (<[key := v]> (staticData h)) (calls h)).

Definition emit (ev : Event) : M unit :=
  fun h => (Returned tt, mkHost (staticData h) (calls h ++ [ev])).

Definition lift {A} (o : Outcome A) : M A := fun h => (o, h).

End Eff.

Declare Scope eff_scope.
Delimit Scope eff_scope with eff.
Notation "x <- m ;; k" := (Eff.bind m (fun x => k))
  (at level 100, m at next level, right associativity) : eff_scope.
Notation "m ;;; k" := (Eff.bind m (fun _ => k))
  (at level 100, right associativity) : eff_scope.

(** ** The router *)

Definition push {A} (array : list A) (x : A) : list A := array ++ [x].

(** Filling [options.conditionsUi.conditionValues] (router.ts lines 31-66). *)
Definition buildOptions (mode changeType pollStartDate pollEndDate : string)
  : QueryOptions :=
  let conditionValues : list Condition := [] in
  if negb (String.eqb mode "manual") then
    if String.eqb changeType "Created" then
      let conditionValues :=
        push conditionValues (mkCondition "CreatedDate" ">=" pollStartDate) in
      let conditionValues :=
        push conditionValues (mkCondition "CreatedDate" "<" pollEndDate) in
      mkOptions conditionValues
    else
      let conditionValues :=
        push conditionValues (mkCondition "LastModifiedDate" ">=" pollStartDate) in
      let conditionValues :=
        push conditionValues (mkCondition "LastModifiedDate" "<" pollEndDate) in
      let conditionValues :=
        push conditionValues (mkCondition "CreatedDate" "<" pollStartDate) in
      mkOptions conditionValues
  else mkOptions conditionValues.

(** How the outer [try] block is left when nothing is thrown: by its
    [return null], or by falling through with the fetched records. *)
Inductive TryExit : Type :=
| ReturnNull
| FallThrough (responseData : list IDataObject).

Section Router.

(** The query builder imported from [../utils/GenericFunctions]: a function
    of its four arguments that yields the query text or throws. *)
Variable getQuery :
  QueryOptions -> string -> bool -> option Z -> Outcome string.

Local Open Scope eff_scope.

Definition callGetQuery (options : QueryOptions) (sobject : string)
    (returnAll : bool) (limit : option Z) : Eff.M string :=
  Eff.emit (GetQuery options sobject returnAll limit) ;;;
  Eff.lift (getQuery options sobject returnAll limit).

Definition callRequestAllItems (this : IPollFunctions)
    (propertyName method endpoint : string) (body qs : IDataObject)
  : Eff.M (list IDataObject) :=
  Eff.emit (ApiRequestAllItems propertyName method endpoint body qs) ;;;
  Eff.lift (salesforceApiRequestAllItems this propertyName method endpoint body qs).

(** The inner [try] (router.ts lines 68-84). *)
Definition fetchStep (this : IPollFunctions) (options : QueryOptions)
    (triggerResource : string) : Eff.M (list IDataObject) :=
  Eff.try_catch
    (q <- (if String.eqb (getMode this) "manual"
           then callGetQuery options triggerResource false (Some 1)
           else callGetQuery options triggerResource true None) ;;
     let qs : IDataObject := {[ "q" := q ]} in
     callRequestAllItems this "records" "GET" "/query" ∅ qs)
    (fun error => Eff.throw (NodeApiError (getNode this) error)).

(** The outer [catch] (router.ts lines 90-107). *)
Definition onError {A} (this : IPollFunctions) (error : Exception) : Eff.M A :=
  lastTimeChecked <- Eff.readStatic "lastTimeChecked" ;;
  if String.eqb (getMode this) "manual" || negb (JS.truthy lastTimeChecked)
  then Eff.throw error
  else
    name <- Eff.readStatic "name" ;;
    id <- Eff.readStatic "id" ;;
    Eff.emit (LoggerError name id error) ;;;
    Eff.throw error.

Definition router (this : IPollFunctions)
  : Eff.M (option (list (list INodeExecutionData))) :=
  let triggerOn := getNodeParameter this "triggerOn" in
  let changeType := changeType triggerOn in
  let triggerResource :=
    triggerResource triggerOn (getNodeParameter this "customObject") in
  let now := now this in
  lastTimeChecked <- Eff.readStatic "lastTimeChecked" ;;
  let startDate := JS.or_else lastTimeChecked now in
  let endDate := now in
  exit <- Eff.try_catch
    (let pollStartDate := startDate in
     let pollEndDate := endDate in
     let options := buildOptions (getMode this) changeType pollStartDate pollEndDate in
     responseData <- fetchStep this options triggerResource ;;
     match responseData with
     | [] => Eff.writeStatic "lastTimeChecked" endDate ;;; Eff.ret ReturnNull
     | _ :: _ => Eff.ret (FallThrough responseData)
     end)
    (onError this) ;;
  match exit with
  | ReturnNull => Eff.ret None
  | FallThrough responseData =>
      Eff.writeStatic "lastTimeChecked" endDate ;;;
      match responseData with
      | _ :: _ => Eff.ret (Some [returnJsonArray this responseData])
      | [] => Eff.ret None
      end
  end.

End Router.

(** ** What one poll asks for, read off the router *)

Definition isManual (this : IPollFunctions) : bool :=
  String.eqb (getMode this) "manual".

Definition pollChangeType (this : IPollFunctions) : string :=
  changeType (getNodeParameter this "triggerOn").

Definition pollResource (this : IPollFunctions) : string :=
  triggerResource (getNodeParameter this "triggerOn")
                  (getNodeParameter this "customObject").

(** [startDate]: the stored checkpoint, or [now] when there is none. *)
Definition pollStart (this : IPollFunctions) (h : Host) : string :=
  JS.or_else (checkpoint h) (now this).

Definition pollOptions (this : IPollFunctions) (h : Host) : QueryOptions :=
  buildOptions (getMode this) (pollChangeType this) (pollStart this h) (now this).

Definition queryCall (this : IPollFunctions) (h : Host) : Event :=
  if isManual this
  then GetQuery (pollOptions this h) (pollResource this) false (Some 1)
  else GetQuery (pollOptions this h) (pollResource this) true None.

Definition requestCall (q : string) : Event :=
  ApiRequestAllItems "records" "GET" "/query" ∅ {[ "q" := q ]}.

(** The log entry written by the outer [catch], if any. *)
Definition errorLog (this : IPollFunctions) (h : Host) (error : Exception)
  : list Event :=
  if isManual this || negb (JS.truthy (checkpoint h)) then []
  else [LoggerError (staticData h !! "name") (staticData h !! "id") error].

(** The value a poll resolves to for the fetched records. *)
Definition batchOf (this : IPollFunctions) (responseData : list IDataObject)
  : option (list (list INodeExecutionData)) :=
  match responseData with
  | [] => None
  | _ :: _ => Some [returnJsonArray this responseData]
  end.

Section Summary.

Variable getQuery :
  QueryOptions -> string -> bool -> option Z -> Outcome string.

Definition builtQuery (this : IPollFunctions) (h : Host) : Outcome string :=
  if isManual this
  then getQuery (pollOptions this h) (pollResource this) false (Some 1)
  else getQuery (pollOptions this h) (pollResource this) true None.

(** Outcome of the fetch step of a poll: the query builder's failure, or
    the fetcher's answer to the built query. *)
Definition fetched (this : IPollFunctions) (h : Host) : Outcome (list IDataObject) :=
  match builtQuery this h with
  | Returned q => salesforceApiRequestAllItems this "records" "GET" "/query" ∅ {[ "q" := q ]}
  | Thrown e => Thrown e
  end.

Definition fetchCalls (this : IPollFunctions) (h : Host) : list Event :=
  match builtQuery this h with
  | Returned q => [queryCall this h; requestCall q]
  | Thrown _ => [queryCall this h]
  end.

End Summary.

(** ** Sequences of polls *)

Definition completed {A} (o : Outcome A) : Prop :=
  match o with
  | Returned _ => True
  | Thrown _ => False
  end.

Section Polls.

Variable getQuery :
  QueryOptions -> string -> bool -> option Z -> Outcome string.

(** The instant an ISO-8601 text denotes, on a linear time scale. *)
Variable instant : string -> Z.

(** The host calls [poll] strictly one after the other; each poll starts
    from the static data the previous one left. *)
Fixpoint pollSequence (polls : list IPollFunctions) (h : Host)
  : list (Outcome (option (list (list INodeExecutionData))) * Host) :=
  match polls with
  | [] => []
  | this :: rest =>
      let r := router getQuery this h in
      r :: pollSequence rest (snd r)
  end.

Definition observedCheckpoints (polls : list IPollFunctions) (h : Host)
  : list (option string) :=
  map (fun r => checkpoint (snd r)) (pollSequence polls h).

(** [a] is a checkpoint no later than the checkpoint [b]. *)
Definition notLater (a b : option string) : Prop :=
  match a, b with
  | Some x, Some y => instant x <= instant y
  | _, _ => False
  end.

Definition earlierPoll (p q : IPollFunctions) : Prop :=
  instant (now p) < instant (now q).

End Polls.

(** ** Meaning of the filter clauses *)

Section Filter.

(** The instant an ISO-8601 text denotes, on a linear time scale. *)
Variable instant : string -> Z.

(** Modelled from the spec: the clauses are rendered by the query builder
    and evaluated by Salesforce, neither of which is among the sources.  A
    record meets a clause [field operation value] when its date-time property
    [field], read as an instant, stands in the relation [operation] to
    [value]; the router emits only the operations [>=] and [<]. *)
Definition holds (record : IDataObject) (c : Condition) : bool :=
  match record !! field c with
  | Some v =>
      if String.eqb (operation c) ">=" then instant (value c) <=? instant v
      else if String.eqb (operation c) "<" then instant v <? instant (value c)
      else false
  | None => false
  end.

(** Modelled from the spec: the filter is the conjunction of its clauses
    (section 4.1, step 2); the joining itself is done by the query builder,
    which is not among the sources. *)
Definition satisfies (record : IDataObject) (options : QueryOptions) : bool :=
  forallb (holds record) (conditionValues options).

End Filter.

(** ** The decoding rule, in the specification's words *)

Module SelectorSpec.

(** The final 7 characters. *)
Definition final7 (selector : string) : string :=
  String.substring (String.length selector - 7) 7 selector.

(** What remains before them. *)
Definition prefix (selector : string) : string :=
  String.substring 0 (String.length selector - 7) selector.

(** Only the first character upper-cased, the rest as it is. *)
Definition upperFirst (s : string) : string :=
  match s with
  | EmptyString => EmptyString
  | String c rest => String (JS.upper_ascii c) rest
  end.

Definition resource (selector : string) : string := upperFirst (prefix selector).

(** The decoding claimed of every selector string. *)
Definition decodes (selector : string) : Prop :=
  changeType selector = final7 selector
  /\ decodedResource selector = resource selector.

End SelectorSpec.

(** ** Sample collaborators, for evaluating the router on concrete polls *)

Module Sample.

Definition renderCondition (c : Condition) : string :=
  (field c ++ " " ++ operation c ++ " " ++ value c)%string.

Definition limitText (limit : option Z) : string :=
  match limit with
  | Some 1 => "1"
  | _ => "0"
  end.

(** Modelled from the spec: the query builder [getQuery] of
    utils/GenericFunctions is not among the sources; this one renders the
    clauses joined by AND as in the scenario of section 8, and a LIMIT when
    not all records are asked for. *)
Definition getQuery (options : QueryOptions) (sobject : string)
    (returnAll : bool) (limit : option Z) : Outcome string :=
  let conditions :=
    match conditionValues options with
    | [] => ""
    | cs => ("WHERE " ++ String.concat " AND " (map renderCondition cs))%string
    end in
  let query := ("SELECT id FROM " ++ sobject ++ " " ++ conditions)%string in
  Returned (if returnAll then query
            else (query ++ " LIMIT " ++ limitText limit)%string).

Definition parameters (triggerOn customObject : string) (name : string) : string :=
  if String.eqb name "triggerOn" then triggerOn
  else if String.eqb name "customObject" then customObject
  else "".

(** A fetcher that answers every request with the given records. *)
Definition answering (records : list IDataObject)
    (propertyName method endpoint : string) (body qs : IDataObject)
  : Outcome (list IDataObject) :=
  Returned records.

(** A host helper that wraps each object as the [json] of an item. *)
Definition returnJsonArray (data : list IDataObject) : list INodeExecutionData :=
  map mkItem data.

(** A fetcher whose request fails. *)
Definition failing (description : string)
    (propertyName method endpoint : string) (body qs : IDataObject)
  : Outcome (list IDataObject) :=
  Thrown (CollaboratorError description).

Definition opportunity (id created modified : string) : IDataObject :=
  <[ "Id" := id ]> (<[ "CreatedDate" := created ]>
    (<[ "LastModifiedDate" := modified ]> ∅)).

Definition freshHost : Host := mkHost ∅ [].

Definition hostAt (lastTimeChecked : string) : Host :=
  mkHost {[ "lastTimeChecked" := lastTimeChecked ]} [].

End Sample.

Module Scenario.

Definition digitValue (c : ascii) : option Z :=
  let n := nat_of_ascii c in
  if ((48 <=? n) && (n <=? 57))%nat then Some (Z.of_nat (n - 48)) else None.

Fixpoint readDigits (acc : Z) (s : string) : Z :=
  match s with
  | EmptyString => acc
  | String c rest =>
      match digitValue c with
      | Some d => readDigits (10 * acc + d) rest
      | None => readDigits acc rest
      end
  end.

(** A time scale for UTC stamps of one layout: the digits of the text read
    as one decimal number, which orders such stamps as time does. *)
Definition instant (iso : string) : Z := readDigits 0 iso.

Definition jan1 : string := "2024-01-01T00:00:00Z".
Definition jan1noon : string := "2024-01-01T12:00:00Z".
Definition jan2 : string := "2024-01-02T00:00:00Z".
Definition jan3 : string := "2024-01-03T00:00:00Z".

Definition created : IDataObject := Sample.opportunity "006A" jan1noon jan1noon.

Definition poll (triggerOn customObject mode clock : string)
    (fetcher : string -> string -> string -> IDataObject -> IDataObject ->
               Outcome (list IDataObject)) : IPollFunctions :=
  mkPoll (Sample.parameters triggerOn customObject) mode "Salesforce Trigger"
         clock fetcher Sample.returnJsonArray.

(** Three scheduled polls: nothing new, one record, nothing new. *)
Definition threePolls : list IPollFunctions :=
  [ poll "opportunityCreated" "" "trigger" jan1 (Sample.answering []);
    poll "opportunityCreated" "" "trigger" jan2 (Sample.answering [created]);
    poll "opportunityCreated" "" "trigger" jan3 (Sample.answering []) ].

Definition failingPoll : IPollFunctions :=
  poll "opportunityUpdated" "" "trigger" jan2 (Sample.failing "ETIMEDOUT").

Definition createdPoll : IPollFunctions :=
  poll "opportunityCreated" "" "trigger" jan2 (Sample.answering [created]).

Definition updatedPoll : IPollFunctions :=
  poll "opportunityUpdated" "" "trigger" jan2 (Sample.answering []).

Definition manualPoll : IPollFunctions :=
  poll "opportunityUpdated" "" "manual" jan2 (Sample.answering [created]).

(** A selector whose suffix is neither "Created" nor "Updated". *)
Definition deletedPoll : IPollFunctions :=
  poll "opportunityDeleted" "" "trigger" jan2 (Sample.answering []).

(** A custom-object selector with the object name left empty. *)
Definition unnamedPoll : IPollFunctions :=
  poll "customObjectCreated" "" "trigger" jan2 (Sample.answering [created]).

End Scenario.

(** ** A statement of the specification, as worded *)

Module AsStated.

(** C9 as worded: a custom-object poll with an empty object name throws
    before anything is queried and leaves the host as it was. *)
Definition rejectsUnnamedCustomObject
    (getQuery : QueryOptions -> string -> bool -> option Z -> Outcome string)
    (this : IPollFunctions) (h : Host) : Prop :=
  decodedResource (getNodeParameter this "triggerOn") = "CustomObject" ->
  getNodeParameter this "customObject" = "" ->
  exists e, router getQuery this h = (Thrown e, h).

End AsStated.

(** ** The calls of one poll *)

Definition isGetQuery (ev : Event) : bool :=
  match ev with
  | GetQuery _ _ _ _ => true
  | _ => false
  end.

Definition isRequest (ev : Event) : bool :=
  match ev with
  | ApiRequestAllItems _ _ _ _ _ => true
  | _ => false
  end.

Definition isLoggerError (ev : Event) : bool :=
  match ev with
  | LoggerError _ _ _ => true
  | _ => false
  end.

(** The calls a poll adds to those made before it. *)
Definition newCalls
    (getQuery : QueryOptions -> string -> bool -> option Z -> Outcome string)
    (this : IPollFunctions) (h : Host) : list Event :=
  drop (length (calls h)) (calls (snd (router getQuery this h))).

(** ** The trigger node (CustomSalesforceTriggerV2) *)

Module TriggerNode.

(** One entry of an [options] parameter, declared or loaded:
    [{ name, value, description? }]. *)
Record INodePropertyOptions := mkPropertyOption {
  name : string;
  value : string;
  description : option string
}.

Definition mkChoice (name value description : string) : INodePropertyOptions :=
  mkPropertyOption name value (Some description).

(** The declared values of the [triggerOn] parameter. *)
Definition triggerOnOptions : list INodePropertyOptions :=
  [ mkChoice "Account Created" "accountCreated" "When a new account is created";
    mkChoice "Account Updated" "accountUpdated"
             "When an existing account is modified";
    mkChoice "Attachment Created" "attachmentCreated"
             "When a file is uploaded and attached to an object";
    mkChoice "Attachment Updated" "attachmentUpdated"
             "When an existing file is modified";
    mkChoice "Case Created" "caseCreated" "When a new case is created";
    mkChoice "Case Updated" "caseUpdated" "When an existing case is modified";
    mkChoice "Contact Created" "contactCreated" "When a new contact is created";
    mkChoice "Contact Updated" "contactUpdated"
             "When an existing contact is modified";
    mkChoice "Custom Object Created" "customObjectCreated"
             "When a new object of a given type is created";
    mkChoice "Custom Object Updated" "customObjectUpdated"
             "When an object of a given type is modified";
    mkChoice "Lead Created" "leadCreated" "When a new lead is created";
    mkChoice "Lead Updated" "leadUpdated" "When an existing lead is modified";
    mkChoice "Opportunity Created" "opportunityCreated"
             "When a new opportunity is created";
    mkChoice "Opportunity Updated" "opportunityUpdated"
             "When an existing opportunity is created";
    mkChoice "Task Created" "taskCreated" "When a new task is created";
    mkChoice "Task Updated" "taskUpdated" "When an existing task is modified";
    mkChoice "User Created" "userCreated" "When a new user is created";
    mkChoice "User Updated" "userUpdated" "When an existing user is modified" ].

(** [default] of [triggerOn]. *)
Definition triggerOnDefault : string := "opportunityCreated".

(** [displayOptions.show.triggerOn] of the [customObject] parameter. *)
Definition customObjectShownFor : list string :=
  ["customObjectUpdated"; "customObjectCreated"].

(** Whether a string is one of the listed ones ([Array.prototype.includes]). *)
Definition includes (l : list string) (x : string) : bool :=
  existsb (String.eqb x) l.

(** An entry of the [sobjects] array answered by [GET /sobjects]; its
    [name] property is [sobjectName] here. *)
Record SObject := mkSObject {
  label : string;
  sobjectName : string;
  custom : bool
}.

(** The entry offered for an object: its label as name, its API name as
    value. *)
Definition customObjectOption (object : SObject) : INodePropertyOptions :=
  mkPropertyOption (label object) (sobjectName object) None.

Section LoadOptions.

(** [sortOptions] of utils/GenericFunctions, which reorders the array it is
    given; here, the array as it is after the call. *)
Variable sortOptions : list INodePropertyOptions -> list INodePropertyOptions.

(** The body of the [for ... of] loop of [getCustomObjects]. *)
Definition pushIfCustom (returnData : list INodePropertyOptions)
    (object : SObject) : list INodePropertyOptions :=
  if custom object
  then push returnData (mkPropertyOption (label object) (sobjectName object) None)
  else returnData.

(** [getCustomObjects]; its argument is what
    [salesforceApiRequest.call(this, 'GET', '/sobjects')] answers. *)
Definition getCustomObjects (response : Outcome (list SObject))
  : Outcome (list INodePropertyOptions) :=
  match response with
  | Thrown e => Thrown e
  | Returned objects =>
      let returnData := fold_left pushIfCustom objects [] in
      Returned (sortOptions returnData)
  end.

End LoadOptions.

End TriggerNode.

(** ** The action node (CustomSalesforceV2) *)

Module NodeV2.

Import TriggerNode.

(** A row of the queue query: [queue.Queue.Id] and [queue.Queue.Name]. *)
Record QueueRow := mkQueueRow {
  QueueId : string;
  QueueName : string
}.

(** A row of the user query: [user.Id] and [user.Name]. *)
Record UserRow := mkUserRow {
  Id : string;
  Name : string
}.

Definition caseQueuesQuery : string :=
  "SELECT Queue.Id, Queue.Name FROM QueuesObject where Queue.Type='Queue' and SobjectType = 'Case'".

Definition leadQueuesQuery : string :=
  "SELECT Queue.Id, Queue.Name FROM QueuesObject where Queue.Type='Queue' and SobjectType = 'Lead'".

Definition usersQuery : string := "SELECT id, Name FROM User".

(** The entries offered for a queue and for a user. *)
Definition queueOption (queue : QueueRow) : INodePropertyOptions :=
  mkPropertyOption (String.append "Queue: " (QueueName queue)) (QueueId queue) None.

Definition userOption (userPrefix : string) (user : UserRow)
  : INodePropertyOptions :=
  mkPropertyOption (String.append userPrefix (Name user)) (Id user) None.

Section Owners.

Variable sortOptions : list INodePropertyOptions -> list INodePropertyOptions.

(** What [salesforceApiRequestAllItems] answers to a query for queues and
    to a query for users. *)
Variable queryQueues : string -> Outcome (list QueueRow).
Variable queryUsers : string -> Outcome (list UserRow).

Definition pushQueue (returnData : list INodePropertyOptions) (queue : QueueRow)
  : list INodePropertyOptions :=
  let queueName := QueueName queue in
  let queueId := QueueId queue in
  push returnData (mkPropertyOption ("Queue: " ++ queueName)%string queueId None).

Definition pushUser (userPrefix : string)
    (returnData : list INodePropertyOptions) (user : UserRow)
  : list INodePropertyOptions :=
  let userName := Name user in
  let userId := Id user in
  push returnData (mkPropertyOption (userPrefix ++ userName)%string userId None).

(** The common body of [getCaseOwners] and [getLeadOwners], which differ in
    the queue query only. *)
Definition getOwners (qsQueues : string) : Outcome (list INodePropertyOptions) :=
  match queryQueues qsQueues with
  | Thrown e => Thrown e
  | Returned queues =>
      let returnData := fold_left pushQueue queues [] in
      match queryUsers usersQuery with
      | Thrown e => Thrown e
      | Returned users =>
          let userPrefix :=
            if (0 <? length returnData)%nat then "User: " else "" in
          let returnData := fold_left (pushUser userPrefix) users returnData in
          Returned (sortOptions returnData)
      end
  end.

Definition getCaseOwners : Outcome (list INodePropertyOptions) :=
  getOwners caseQueuesQuery.

Definition getLeadOwners : Outcome (list INodePropertyOptions) :=
  getOwners leadQueuesQuery.

End Owners.

(** An entry of [customFieldsUi.customFieldsValues]. *)
Record CustomField := mkCustomField {
  fieldId : string;
  fieldValue : string
}.

(** The request [execute] hands to [salesforceApiRequest]. *)
Record Request := mkRequest {
  method : string;
  endpoint : string;
  body : IDataObject
}.

(** [body[key] = value] for a string [value] on a plain object, seen
    through its own properties, which are what is sent.  The key [__proto__]
    names the prototype accessor: assigning a string to it is ignored and
    creates no own property. *)
Definition setProperty (key value : string) (body : IDataObject) : IDataObject :=
  if String.eqb key "__proto__" then body else <[ key := value ]> body.

(** The loop [body[customField.fieldId] = customField.value], run when
    [customFieldsUi] and its [customFieldsValues] are present. *)
Definition setCustomFields (customFieldsUi : option (option (list CustomField)))
    (body : IDataObject) : IDataObject :=
  match customFieldsUi with
  | Some (Some customFields) =>
      fold_left (fun body customField =>
                   setProperty (fieldId customField) (fieldValue customField) body)
                customFields body
  | _ => body
  end.

(** [if (fields.recordTypeId) body.RecordTypeId = fields.recordTypeId],
    where an absent or empty id is falsy. *)
Definition setRecordTypeId (recordTypeId : option string) (body : IDataObject)
  : IDataObject :=
  match recordTypeId with
  | Some id => if String.eqb id "" then body else <[ "RecordTypeId" := id ]> body
  | None => body
  end.

(** The request of the customObject branch of [execute] for the operations
    create and upsert (lines 1049-1077 of the node file). *)
Definition customObjectCreateOrUpsert (operation customObject : string)
    (customFieldsUi : option (option (list CustomField)))
    (recordTypeId : option string) (externalId externalIdValue : string)
  : Request :=
  let body : IDataObject := ∅ in
  let body := setCustomFields customFieldsUi body in
  let body := setRecordTypeId recordTypeId body in
  let endpoint := ("/sobjects/" ++ customObject)%string in
  let method := "POST" in
  if String.eqb operation "upsert" then
    let method := "PATCH" in
    let endpoint :=
      ("/sobjects/" ++ customObject ++ "/" ++ externalId ++ "/"
         ++ externalIdValue)%string in
    let body :=
      match body !! externalId with
      | Some _ => delete externalId body
      | None => body
      end in
    mkRequest method endpoint body
  else mkRequest method endpoint body.



End NodeV2.

(** ** Case conversion (split, noCase, snakeCase) *)

Module ChangeCase.

Definition NUL : ascii := ascii_of_nat 0.

Definition isNul (c : ascii) : bool := Ascii.eqb c NUL.

(** The character classes of the regular expressions, on ASCII. *)
Definition isLower (c : ascii) : bool :=
  let n := nat_of_ascii c in ((97 <=? n) && (n <=? 122))%nat.

Definition isUpper (c : ascii) : bool :=
  let n := nat_of_ascii c in ((65 <=? n) && (n <=? 90))%nat.

Definition isDigit (c : ascii) : bool :=
  let n := nat_of_ascii c in ((48 <=? n) && (n <=? 57))%nat.

(** [[\p{L}\d]] *)
Definition isWord (c : ascii) : bool := isLower c || isUpper c || isDigit c.

(** White space and line terminators, as [trim] removes them. *)
Definition isSpace (c : ascii) : bool :=
  let n := nat_of_ascii c in (((9 <=? n) && (n <=? 13)) || (n =? 32))%nat.

(** A string without its leading characters of a class. *)
Fixpoint dropStartWhile (P : ascii -> bool) (s : string) : string :=
  match s with
  | EmptyString => EmptyString
  | String c rest => if P c then dropStartWhile P rest else s
  end.

(** A string without its trailing characters of a class. *)
Fixpoint dropEndWhile (P : ascii -> bool) (s : string) : string :=
  match s with
  | EmptyString => EmptyString
  | String c rest =>
      match dropEndWhile P rest with
      | EmptyString => if P c then EmptyString else String c EmptyString
      | kept => String c kept
      end
  end.

(** [value.trim()] *)
Definition trim (s : string) : string :=
  dropEndWhile isSpace (dropStartWhile isSpace s).

(** [.replace(SPLIT_LOWER_UPPER_RE, '$1\0$2')]: scanning from the left,
    each match of a lower-case letter or digit followed by an upper-case
    letter gets a NUL between the two, and scanning resumes after the match. *)
Fixpoint replaceLowerUpper (s : string) : string :=
  match s with
  | String c1 ((String c2 rest) as tail) =>
      if (isLower c1 || isDigit c1) && isUpper c2
      then String c1 (String NUL (String c2 (replaceLowerUpper rest)))
      else String c1 (replaceLowerUpper tail)
  | _ => s
  end.

(** [.replace(SPLIT_UPPER_UPPER_RE, '$1\0$2')]: a match is an upper-case
    letter followed by an upper-case and a lower-case letter. *)
Fixpoint replaceUpperUpper (s : string) : string :=
  match s with
  | String c1 ((String c2 (String c3 rest)) as tail) =>
      if isUpper c1 && isUpper c2 && isLower c3
      then String c1 (String NUL (String c2 (String c3 (replaceUpperUpper rest))))
      else String c1 (replaceUpperUpper tail)
  | _ => s
  end.

(** [.replace(DEFAULT_STRIP_REGEXP, '\0')]: every maximal run of characters
    that are neither letters nor digits becomes one NUL.  [inRun] tells
    whether the character before belongs to such a run. *)
Fixpoint stripFrom (inRun : bool) (s : string) : string :=
  match s with
  | EmptyString => EmptyString
  | String c rest =>
      if isWord c then String c (stripFrom false rest)
      else if inRun then stripFrom true rest
      else String NUL (stripFrom true rest)
  end.

Definition replaceStrip (s : string) : string := stripFrom false s.

(** [while (result.charAt(start) === '\0') start++], with [rest] the part
    of [result] from [start] on. *)
Fixpoint advanceStart (rest : string) (start : nat) : nat :=
  match rest with
  | EmptyString => start
  | String c rest' => if isNul c then advanceStart rest' (S start) else start
  end.

(** [while (result.charAt(end - 1) === '\0') end--] *)
Fixpoint retreatEnd (result : string) (end_ : nat) : nat :=
  match end_ with
  | O => O
  | S before =>
      match String.get before result with
      | Some c => if isNul c then retreatEnd result before else end_
      | None => end_
      end
  end.

(** [.split(/\0/g)] *)
Fixpoint splitNul (s : string) : list string :=
  match s with
  | EmptyString => [EmptyString]
  | String c rest =>
      if isNul c then EmptyString :: splitNul rest
      else match splitNul rest with
           | word :: words => String c word :: words
           | [] => [String c EmptyString]
           end
  end.

(** [split]: any cased input into its words. *)
Definition split (value : string) : list string :=
  let result := trim value in
  let result := replaceUpperUpper (replaceLowerUpper result) in
  let result := replaceStrip result in
  let start := advanceStart result 0 in
  let end_ := String.length result in
  if Nat.eqb start end_ then []
  else
    let end_ := retreatEnd result end_ in
    splitNul (JS.slice result (Z.of_nat start) (Some (Z.of_nat end_))).

(** [Locale]: [false], or what is handed on to [toLocaleLowerCase] (a tag,
    a list of tags, or [undefined] as the empty list). *)
Inductive Locale : Type :=
| LocaleFalse
| LocaleTags (tags : list string).

(** [Options]; [None] is an absent property. *)
Record Options := mkCaseOptions {
  locale : option Locale;
  split_ : option (string -> list string);
  separateNumbers : option bool;
  delimiter : option string;
  prefixCharacters : option string;
  suffixCharacters : option string
}.

Definition noOptions : Options := mkCaseOptions None None None None None None.

(** [characters.includes(char)] for a single character. *)
Fixpoint includesChar (characters : string) (char : ascii) : bool :=
  match characters with
  | EmptyString => false
  | String c rest => Ascii.eqb c char || includesChar rest char
  end.

(** The first loop of [splitPrefixSuffix], with [rest] the part of [input]
    from [prefixIndex] on. *)
Fixpoint advancePrefix (prefixCharacters rest : string) (prefixIndex : nat) : nat :=
  match rest with
  | EmptyString => prefixIndex
  | String char rest' =>
      if negb (includesChar prefixCharacters char) then prefixIndex
      else advancePrefix prefixCharacters rest' (S prefixIndex)
  end.

(** The second loop of [splitPrefixSuffix].  Past the end [charAt] gives
    the empty string, which every string includes. *)
Fixpoint retreatSuffix (suffixCharacters input : string)
    (prefixIndex suffixIndex : nat) : nat :=
  match suffixIndex with
  | O => O
  | S index =>
      if (prefixIndex <? suffixIndex)%nat then
        match String.get index input with
        | Some char =>
            if negb (includesChar suffixCharacters char) then suffixIndex
            else retreatSuffix suffixCharacters input prefixIndex index
        | None => retreatSuffix suffixCharacters input prefixIndex index
        end
      else suffixIndex
  end.

Definition DEFAULT_PREFIX_SUFFIX_CHARACTERS : string := "".

Definition splitPrefixSuffix (input : string) (options : option Options)
  : string * list string * string :=
  let options := default noOptions options in
  let splitFn := default split (split_ options) in
  let prefixCharacters :=
    default DEFAULT_PREFIX_SUFFIX_CHARACTERS (prefixCharacters options) in
  let suffixCharacters :=
    default DEFAULT_PREFIX_SUFFIX_CHARACTERS (suffixCharacters options) in
  let prefixIndex := advancePrefix prefixCharacters input 0 in
  let suffixIndex :=
    retreatSuffix suffixCharacters input prefixIndex (String.length input) in
  (JS.slice input 0 (Some (Z.of_nat prefixIndex)),
   splitFn (JS.slice input (Z.of_nat prefixIndex) (Some (Z.of_nat suffixIndex))),
   JS.slice input (Z.of_nat suffixIndex) None).

(** [toLowerCase] on ASCII. *)
Definition lower_ascii (c : ascii) : ascii :=
  if isUpper c then ascii_of_nat (nat_of_ascii c + 32) else c.

Fixpoint toLowerCase (s : string) : string :=
  match s with
  | EmptyString => EmptyString
  | String c rest => String (lower_ascii c) (toLowerCase rest)
  end.

Section Locales.

(** [input.toLocaleLowerCase(locale)], which depends on the host. *)
Variable toLocaleLowerCase : list string -> string -> string.

Definition lowerFactory (locale : option Locale) : string -> string :=
  match locale with
  | Some LocaleFalse => fun input => toLowerCase input
  | Some (LocaleTags tags) => fun input => toLocaleLowerCase tags input
  | None => fun input => toLocaleLowerCase [] input
  end.

(** [noCase]: space separated lower case. *)
Definition noCase (input : string) (options : option Options) : string :=
  let '(prefix, words, suffix) := splitPrefixSuffix input options in
  (prefix
   ++ String.concat (default " " (options ≫= delimiter))
                    (map (lowerFactory (options ≫= locale)) words)
   ++ suffix)%string.

(** [{ delimiter: '_', ...options }] *)
Definition withUnderscore (options : option Options) : Options :=
  match options with
  | None => mkCaseOptions None None None (Some "_") None None
  | Some o =>
      mkCaseOptions (locale o) (split_ o) (separateNumbers o)
                (Some (default "_" (delimiter o)))
                (prefixCharacters o) (suffixCharacters o)
  end.

(** [snakeCase]: [foo_bar]. *)
Definition snakeCase (input : string) (options : option Options) : string :=
  noCase input (Some (withUnderscore options)).

End Locales.

(** The options [{ locale: false }]. *)
Definition localeFalse : Options :=
  mkCaseOptions (Some LocaleFalse) None None None None None.

(** Whether every character of a string is in a class. *)
Fixpoint allChars (P : ascii -> bool) (s : string) : bool :=
  match s with
  | EmptyString => true
  | String c rest => P c && allChars P rest
  end.

(** The characters of a string that are in a class, in order. *)
Fixpoint keepChars (P : ascii -> bool) (s : string) : string :=
  match s with
  | EmptyString => EmptyString
  | String c rest => if P c then String c (keepChars P rest) else keepChars P rest
  end.

Definition notNul (c : ascii) : bool := negb (isNul c).

Definition wordOrNul (c : ascii) : bool := isWord c || isNul c.

Definition lowerOrDigit (c : ascii) : bool := isLower c || isDigit c.

(** The code units the model covers. *)
Definition isAscii (c : ascii) : bool := (nat_of_ascii c <? 128)%nat.

Definition isUnderscore (c : ascii) : bool := Ascii.eqb c "_"%char.

(** The characters of [snake_case]: lower-case letters, digits and the
    underscore. *)
Definition isSnake (c : ascii) : bool := isLower c || isDigit c || isUnderscore c.

(** A string that is cut by the separator into non-empty pieces: it is not
    empty, does not start or end with the separator, and has no two
    separators in a row.  [afterSep] tells whether a separator (or the start
    of the string) comes just before. *)
Fixpoint wellCut (isSep : ascii -> bool) (afterSep : bool) (s : string) : bool :=
  match s with
  | EmptyString => negb afterSep
  | String c rest =>
      if isSep c then negb afterSep && wellCut isSep true rest
      else wellCut isSep false rest
  end.

End ChangeCase.

(** ** A sample [sortOptions] *)

Module SampleSort.

Import TriggerNode.

Fixpoint insertByName (option : INodePropertyOptions)
    (sorted : list INodePropertyOptions) : list INodePropertyOptions :=
  match sorted with
  | [] => [option]
  | first :: rest =>
      if String.leb (name option) (name first) then option :: sorted
      else first :: insertByName option rest
  end.

(** Modelled from the spec: [sortOptions] of utils/GenericFunctions is not
    among the sources; this one orders the entries by name. *)
Definition sortOptions (options : list INodePropertyOptions)
  : list INodePropertyOptions :=
  fold_right insertByName [] options.

End SampleSort.

(** ** Sample data for the node's option loaders and requests *)

Module Examples.

Import TriggerNode NodeV2.

Definition sobjects : list SObject :=
  [ mkSObject "Account" "Account" false;
    mkSObject "Invoice" "Invoice__c" true;
    mkSObject "Contact" "Contact" false;
    mkSObject "Asset Tag" "Asset_Tag__c" true ].

Definition queues : list QueueRow :=
  [ mkQueueRow "00G1" "Tier 2"; mkQueueRow "00G2" "Billing" ].

Definition users : list UserRow :=
  [ mkUserRow "0051" "Ada"; mkUserRow "0052" "Grace" ].

Definition answerQueues (q : string) : Outcome (list QueueRow) :=
  Returned queues.

Definition answerUsers (q : string) : Outcome (list UserRow) :=
  Returned users.

(** A host whose static data holds a checkpoint and an unrelated entry. *)
Definition hostWithNote : Host :=
  mkHost (<[ "note" := "kept" ]> {[ "lastTimeChecked" := Scenario.jan1 ]}) [].

(** A host whose stored checkpoint is the empty string. *)
Definition hostWithEmptyCheckpoint : Host :=
  mkHost {[ "lastTimeChecked" := "" ]} [].

End Examples.

(** * Properties *)

(** ** The declared selectors decode as intended *)

Example decode_opportunityUpdated :
  (triggerResource "opportunityUpdated" "", changeType "opportunityUpdated")
  = ("Opportunity", "Updated").
Proof. reflexivity. Qed.

Example decode_customObjectCreated :
  (triggerResource "customObjectCreated" "Invoice__c", changeType "customObjectCreated")
  = ("Invoice__c", "Created").
Proof. reflexivity. Qed.

(** ** One poll, by the outcome of its fetch step *)

Section RouterFacts.

Variable getQuery :
  QueryOptions -> string -> bool -> option Z -> Outcome string.

Lemma router_fetched_ok this h responseData :
  fetched getQuery this h = Returned responseData ->
  router getQuery this h =
    (Returned (batchOf this responseData),
     mkHost (<[ "lastTimeChecked" := now this ]> (staticData h))
            (calls h ++ fetchCalls getQuery this h)).
Proof.
  unfold fetched, fetchCalls, builtQuery, queryCall, isManual.
  unfold router, fetchStep, callGetQuery, callRequestAllItems.
  unfold pollOptions, pollStart, pollChangeType, pollResource, checkpoint.
  unfold Eff.bind, Eff.try_catch, Eff.readStatic, Eff.emit, Eff.lift,
    Eff.writeStatic, Eff.ret; simpl.
  destruct (String.eqb (getMode this) "manual"); simpl;
    (destruct (getQuery _ _ _ _) as [q|e]; simpl; [|discriminate]);
    intros ->; destruct responseData; simpl;
    rewrite <- ?app_assoc; reflexivity.
Qed.

Lemma router_fetched_error this h e :
  fetched getQuery this h = Thrown e ->
  router getQuery this h =
    (Thrown (NodeApiError (getNode this) e),
     mkHost (staticData h)
            (calls h ++ fetchCalls getQuery this h
               ++ errorLog this h (NodeApiError (getNode this) e))).
Proof.
  unfold fetched, fetchCalls, builtQuery, queryCall, errorLog, isManual.
  unfold router, onError, fetchStep, callGetQuery, callRequestAllItems.
  unfold pollOptions, pollStart, pollChangeType, pollResource, checkpoint.
  unfold Eff.bind, Eff.try_catch, Eff.readStatic, Eff.emit, Eff.lift,
    Eff.writeStatic, Eff.throw, Eff.ret; simpl.
  destruct (String.eqb (getMode this) "manual"); simpl;
    (destruct (getQuery _ _ _ _) as [q|e']; simpl;
     [intros -> | intros [= ->]]); simpl;
    try destruct (JS.truthy _); simpl;
    rewrite <- ?app_assoc, ?app_nil_r; reflexivity.
Qed.

Lemma router_cases this h :
  (exists responseData,
      fetched getQuery this h = Returned responseData /\
      router getQuery this h =
        (Returned (batchOf this responseData),
         mkHost (<[ "lastTimeChecked" := now this ]> (staticData h))
                (calls h ++ fetchCalls getQuery this h)))
  \/
  (exists e,
      fetched getQuery this h = Thrown e /\
      router getQuery this h =
        (Thrown (NodeApiError (getNode this) e),
         mkHost (staticData h)
                (calls h ++ fetchCalls getQuery this h
                   ++ errorLog this h (NodeApiError (getNode this) e)))).
Proof.
  destruct (fetched getQuery this h) as [rs|e] eqn:F.
  - left. exists rs. split; [reflexivity|]. now apply router_fetched_ok.
  - right. exists e. split; [reflexivity|]. now apply router_fetched_error.
Qed.

Lemma router_completed_checkpoint this h :
  completed (fst (router getQuery this h)) ->
  checkpoint (snd (router getQuery this h)) = Some (now this).
Proof.
  destruct (router_cases this h) as [(rs & _ & ->) | (e & _ & ->)]; simpl.
  - intros _. unfold checkpoint; simpl. apply lookup_insert_eq.
  - intros [].
Qed.

Lemma isManual_false this : getMode this <> "manual" -> isManual this = false.
Proof. unfold isManual. now destruct (String.eqb_spec (getMode this) "manual"). Qed.

Lemma isManual_true this : getMode this = "manual" -> isManual this = true.
Proof. unfold isManual. intros ->. reflexivity. Qed.

(** The first call a poll makes is the query builder's. *)
Lemma router_first_call this h :
  exists rest,
    calls (snd (router getQuery this h)) = (calls h ++ queryCall this h :: rest)%list.
Proof.
  destruct (router_cases this h) as [(rs & _ & ->) | (e & _ & ->)];
    simpl; unfold fetchCalls; destruct (builtQuery getQuery this h);
    simpl; eauto.
Qed.

End RouterFacts.

(** ** The checkpoint *)

Section Checkpoints.

Variable getQuery :
  QueryOptions -> string -> bool -> option Z -> Outcome string.

(** The instant an ISO-8601 text denotes, on a linear time scale. *)
Variable instant : string -> Z.

Lemma observed_equal_now polls : forall h,
  Forall (fun r => completed (fst r)) (pollSequence getQuery polls h) ->
  observedCheckpoints getQuery polls h = map (fun this => Some (now this)) polls.
Proof.
  unfold observedCheckpoints.
  induction polls as [|this rest IH]; intros h Hok; simpl; [reflexivity|].
  simpl in Hok. inversion Hok as [|? ? Hhd Htl]; subst.
  f_equal.
  - now apply router_completed_checkpoint.
  - now apply IH.
Qed.

Lemma sorted_now_notLater polls :
  StronglySorted (earlierPoll instant) polls ->
  StronglySorted (notLater instant) (map (fun this => Some (now this)) polls).
Proof.
  induction 1 as [|p ps Hs IH Hall]; simpl; constructor; [exact IH|].
  rewrite Forall_map. eapply Forall_impl; [exact Hall|].
  intros q Hq. unfold earlierPoll in Hq. simpl. lia.
Qed.

(** C1. Every poll that completes without an error leaves the stored
    checkpoint equal to the [now] it captured, whatever was fetched; so along
    a sequence of successful polls the observed checkpoints are the [now]
    values of the polls, one by one, and when those increase the checkpoints
    never decrease. *)
Theorem checkpoint_is_window_end (polls : list IPollFunctions) (h : Host)
    (Hok : Forall (fun r => completed (fst r)) (pollSequence getQuery polls h)) :
  Forall2 (fun this r => checkpoint (snd r) = Some (now this))
          polls (pollSequence getQuery polls h)
  /\ observedCheckpoints getQuery polls h = map (fun this => Some (now this)) polls
  /\ (StronglySorted (earlierPoll instant) polls ->
      StronglySorted (notLater instant) (observedCheckpoints getQuery polls h)).
Proof.
  split; [|split].
  - revert h Hok. induction polls as [|this rest IH]; intros h Hok; simpl.
    + constructor.
    + simpl in Hok. inversion Hok as [|? ? Hhd Htl]; subst.
      constructor; [now apply router_completed_checkpoint | now apply IH].
  - now apply observed_equal_now.
  - intros Hs. rewrite observed_equal_now by exact Hok.
    now apply sorted_now_notLater.
Qed.

(** C2. When a checkpoint [C] is stored and the fetch step fails, the
    router throws the wrapped error, the static data is left as it was, the
    checkpoint is still [C], and the window of the next poll starts at [C]. *)
Theorem failed_fetch_keeps_checkpoint
    (this : IPollFunctions) (h : Host) (C : string) (e : Exception)
    (Hstored : checkpoint h = Some C)
    (Hset : C <> "")
    (Hfail : fetched getQuery this h = Thrown e) :
  fst (router getQuery this h) = Thrown (NodeApiError (getNode this) e)
  /\ staticData (snd (router getQuery this h)) = staticData h
  /\ checkpoint (snd (router getQuery this h)) = Some C
  /\ forall next : IPollFunctions,
       pollStart next (snd (router getQuery this h)) = C.
Proof.
  rewrite (router_fetched_error _ _ _ _ Hfail); simpl.
  repeat split; try assumption.
  intros next. unfold pollStart, checkpoint; simpl.
  unfold checkpoint in Hstored. rewrite Hstored; simpl.
  destruct (String.eqb_spec C ""); [contradiction | reflexivity].
Qed.

(** C3. When no checkpoint is stored and the fetch step fails, the router
    throws the wrapped error and the checkpoint is still absent: the next
    poll finds none and its window starts at its own [now]. *)
Theorem failed_first_fetch_leaves_unset
    (this : IPollFunctions) (h : Host) (e : Exception)
    (Habsent : checkpoint h = None)
    (Hfail : fetched getQuery this h = Thrown e) :
  fst (router getQuery this h) = Thrown (NodeApiError (getNode this) e)
  /\ staticData (snd (router getQuery this h)) = staticData h
  /\ checkpoint (snd (router getQuery this h)) = None
  /\ forall next : IPollFunctions,
       pollStart next (snd (router getQuery this h)) = now next.
Proof.
  rewrite (router_fetched_error _ _ _ _ Hfail); simpl.
  repeat split; try assumption.
  intros next. unfold pollStart, checkpoint; simpl.
  unfold checkpoint in Habsent. now rewrite Habsent.
Qed.

End Checkpoints.

(** ** The filter *)

Section FilterFacts.

(** The instant an ISO-8601 text denotes, on a linear time scale. *)
Variable instant : string -> Z.

Lemma buildOptions_created mode s e :
  mode <> "manual" ->
  buildOptions mode "Created" s e =
    mkOptions [mkCondition "CreatedDate" ">=" s; mkCondition "CreatedDate" "<" e].
Proof.
  intros Hmode. unfold buildOptions.
  destruct (String.eqb_spec mode "manual"); [contradiction | reflexivity].
Qed.

Lemma buildOptions_not_created mode kind s e :
  mode <> "manual" -> kind <> "Created" ->
  buildOptions mode kind s e =
    mkOptions [mkCondition "LastModifiedDate" ">=" s;
               mkCondition "LastModifiedDate" "<" e;
               mkCondition "CreatedDate" "<" s].
Proof.
  intros Hmode Hkind. unfold buildOptions.
  destruct (String.eqb_spec mode "manual"); [contradiction|].
  destruct (String.eqb_spec kind "Created"); [contradiction | reflexivity].
Qed.

Lemma buildOptions_manual kind s e :
  buildOptions "manual" kind s e = mkOptions [].
Proof. reflexivity. Qed.

(** C5. A record created at [t] within the window [[s, e)] meets the
    Created filter of that window and fails the Updated filter of every
    window that starts at or before [t]; and while the record is unmodified
    it fails the Updated filter of every window whatsoever, so one creation
    is never reported as an update too. *)
Theorem creation_not_reported_as_update
    (mode : string) (record : IDataObject) (t s e : string)
    (Hmode : mode <> "manual")
    (Hcreated : record !! "CreatedDate" = Some t)
    (Hin : instant s <= instant t < instant e) :
  satisfies instant record (buildOptions mode "Created" s e) = true
  /\ (forall s' e' : string,
        instant s' <= instant t ->
        satisfies instant record (buildOptions mode "Updated" s' e') = false)
  /\ (record !! "LastModifiedDate" = Some t ->
      forall s' e' : string,
        satisfies instant record (buildOptions mode "Updated" s' e') = false).
Proof.
  split; [|split].
  - rewrite buildOptions_created by assumption.
    unfold satisfies, holds; simpl. rewrite Hcreated; simpl.
    apply andb_true_iff; split; [|apply andb_true_iff; split; [|reflexivity]].
    + apply Z.leb_le; lia.
    + apply Z.ltb_lt; lia.
  - intros s' e' Hs'.
    rewrite buildOptions_not_created by (assumption || discriminate).
    unfold satisfies, holds; simpl. rewrite Hcreated; simpl.
    replace (instant t <? instant s') with false
      by (symmetry; apply Z.ltb_ge; lia).
    now rewrite !andb_false_r.
  - intros Hmodified s' e'.
    rewrite buildOptions_not_created by (assumption || discriminate).
    unfold satisfies, holds; simpl. rewrite Hcreated, Hmodified; simpl.
    destruct (Z.leb_spec (instant s') (instant t)) as [Hle|Hgt]; simpl.
    + replace (instant t <? instant s') with false
        by (symmetry; apply Z.ltb_ge; lia).
      now rewrite !andb_false_r.
    + reflexivity.
Qed.

End FilterFacts.

(** ** What a poll asks the query builder *)

Section Queries.

Variable getQuery :
  QueryOptions -> string -> bool -> option Z -> Outcome string.

(** The instant an ISO-8601 text denotes, on a linear time scale. *)
Variable instant : string -> Z.

(** C4. In a non-manual poll with window [[start, end)] the router hands
    the query builder exactly: for Created, [CreatedDate >= start] and
    [CreatedDate < end]; for Updated, [LastModifiedDate >= start],
    [LastModifiedDate < end] and [CreatedDate < start], in this order. *)
Theorem window_filter_clauses (this : IPollFunctions) (h : Host)
    (Hmode : getMode this <> "manual") :
  (pollChangeType this = "Created" ->
   exists rest,
     calls (snd (router getQuery this h)) =
       (calls h ++
       GetQuery (mkOptions [mkCondition "CreatedDate" ">=" (pollStart this h);
                            mkCondition "CreatedDate" "<" (now this)])
                (pollResource this) true None :: rest)%list)
  /\
  (pollChangeType this = "Updated" ->
   exists rest,
     calls (snd (router getQuery this h)) =
       (calls h ++
       GetQuery (mkOptions [mkCondition "LastModifiedDate" ">=" (pollStart this h);
                            mkCondition "LastModifiedDate" "<" (now this);
                            mkCondition "CreatedDate" "<" (pollStart this h)])
                (pollResource this) true None :: rest)%list).
Proof.
  destruct (router_first_call getQuery this h) as [rest Hcalls].
  unfold queryCall, pollOptions in Hcalls.
  rewrite (isManual_false _ Hmode) in Hcalls.
  split; intros Hkind; exists rest; rewrite Hcalls, Hkind.
  - now rewrite buildOptions_created.
  - now rewrite buildOptions_not_created.
Qed.

(** C10. In a non-manual poll whose selector does not end in exactly
    "Created", the router takes the other branch whatever the suffix is: the
    query builder receives the three Updated clauses, and nothing rejects the
    selector, the poll's result being the fetch step's. *)
Theorem unrecognized_kind_is_updated (this : IPollFunctions) (h : Host)
    (Hmode : getMode this <> "manual")
    (Hkind : pollChangeType this <> "Created") :
  (exists rest,
     calls (snd (router getQuery this h)) =
       (calls h ++
       GetQuery (mkOptions [mkCondition "LastModifiedDate" ">=" (pollStart this h);
                            mkCondition "LastModifiedDate" "<" (now this);
                            mkCondition "CreatedDate" "<" (pollStart this h)])
                (pollResource this) true None :: rest)%list)
  /\ (forall responseData,
        fetched getQuery this h = Returned responseData ->
        fst (router getQuery this h) = Returned (batchOf this responseData))
  /\ (forall e,
        fst (router getQuery this h) = Thrown e ->
        exists cause,
          fetched getQuery this h = Thrown cause /\
          e = NodeApiError (getNode this) cause).
Proof.
  split; [|split].
  - destruct (router_first_call getQuery this h) as [rest Hcalls].
    unfold queryCall, pollOptions in Hcalls.
    rewrite (isManual_false _ Hmode) in Hcalls.
    exists rest. rewrite Hcalls. now rewrite buildOptions_not_created.
  - intros rs Hrs. now rewrite (router_fetched_ok _ _ _ _ Hrs).
  - intros e.
    destruct (router_cases getQuery this h) as [(rs & _ & ->) | (c & Hc & ->)];
      simpl; [discriminate|].
    intros [= <-]. eauto.
Qed.

(** C7. In a manual poll no clause is built, whatever checkpoint is
    stored; the query builder is asked for a single record (not all, limit
    1); and when the poll succeeds the checkpoint becomes [now]. *)
Theorem manual_poll_bypasses_window (this : IPollFunctions) (h : Host)
    (Hmode : getMode this = "manual") :
  conditionValues (pollOptions this h) = []
  /\ (exists rest,
        calls (snd (router getQuery this h)) =
          (calls h ++ GetQuery (mkOptions []) (pollResource this) false (Some 1)
                   :: rest)%list)
  /\ (forall h' : Host, builtQuery getQuery this h' = builtQuery getQuery this h)
  /\ (completed (fst (router getQuery this h)) ->
      checkpoint (snd (router getQuery this h)) = Some (now this)).
Proof.
  assert (Hopt : forall h', pollOptions this h' = mkOptions []).
  { intros h'. unfold pollOptions. rewrite Hmode. apply buildOptions_manual. }
  split; [|split; [|split]].
  - now rewrite Hopt.
  - destruct (router_first_call getQuery this h) as [rest Hcalls].
    unfold queryCall in Hcalls.
    rewrite (isManual_true _ Hmode), Hopt in Hcalls. eauto.
  - intros h'. unfold builtQuery. now rewrite !Hopt.
  - apply router_completed_checkpoint.
Qed.



(** C9 (as amended). When a custom-object change is selected and the
    custom object name is empty, the router validates nothing: the empty
    name is the resource handed to the query builder, and the poll ends as
    the fetch step does, advancing the checkpoint to [now] when it succeeds
    and leaving the static data untouched when it fails. *)
Theorem unnamed_custom_object_is_queried (this : IPollFunctions) (h : Host)
    (Hcustom : decodedResource (getNodeParameter this "triggerOn") = "CustomObject")
    (Hunnamed : getNodeParameter this "customObject" = "") :
  pollResource this = ""
  /\ (exists options returnAll limit rest,
        calls (snd (router getQuery this h)) =
          (calls h ++ GetQuery options "" returnAll limit :: rest)%list)
  /\ (forall responseData,
        fetched getQuery this h = Returned responseData ->
        fst (router getQuery this h) = Returned (batchOf this responseData)
        /\ checkpoint (snd (router getQuery this h)) = Some (now this))
  /\ (forall e,
        fetched getQuery this h = Thrown e ->
        fst (router getQuery this h) = Thrown (NodeApiError (getNode this) e)
        /\ staticData (snd (router getQuery this h)) = staticData h).
Proof.
  assert (Hres : pollResource this = "").
  { unfold pollResource, triggerResource. now rewrite Hcustom, Hunnamed. }
  split; [exact Hres|]. split; [|split].
  - destruct (router_first_call getQuery this h) as [rest Hcalls].
    unfold queryCall in Hcalls. rewrite Hres in Hcalls.
    destruct (isManual this); eauto 6.
  - intros rs Hrs. rewrite (router_fetched_ok _ _ _ _ Hrs); simpl.
    split; [reflexivity | apply lookup_insert_eq].
  - intros e He. rewrite (router_fetched_error _ _ _ _ He); simpl.
    split; reflexivity.
Qed.

End Queries.

(** ** Selector decoding *)

Section Substrings.

Lemma substring_none (s : string) : String.substring 0 0 s = "".
Proof. destruct s; reflexivity. Qed.

Lemma substring_length (s : string) : forall n m : nat,
  (n + m <= String.length s)%nat ->
  String.length (String.substring n m s) = m.
Proof.
  induction s as [|c s IH]; intros n m Hle; simpl in *.
  - destruct n, m; simpl; lia.
  - destruct n as [|n].
    + destruct m as [|m]; simpl; [reflexivity|].
      f_equal. apply IH. lia.
    + apply IH. lia.
Qed.

Lemma append_String (c : ascii) (x y : string) :
  String.append (String c x) y = String c (String.append x y).
Proof. reflexivity. Qed.

Lemma substring_cut (s : string) : forall n : nat,
  (n <= String.length s)%nat ->
  s = String.append (String.substring 0 n s)
                    (String.substring n (String.length s - n) s).
Proof.
  induction s as [|c s IH]; intros n Hle; simpl in *.
  - destruct n; [reflexivity | lia].
  - destruct n as [|n]; simpl.
    + specialize (IH 0%nat ltac:(lia)).
      rewrite substring_none, Nat.sub_0_r in IH. simpl in IH.
      change (String c s = String c (String.substring 0 (String.length s) s)).
      now f_equal.
    + rewrite append_String. f_equal. apply IH. lia.
Qed.

Lemma slice_first (s : string) :
  (1 <= String.length s)%nat ->
  JS.slice s 0 (Some 1) = String.substring 0 1 s.
Proof.
  intros Hlen. unfold JS.slice, JS.relative_index; simpl.
  f_equal; lia.
Qed.

Lemma slice_middle (s : string) :
  (8 <= String.length s)%nat ->
  JS.slice s 1 (Some (-7)) = String.substring 1 (String.length s - 8) s.
Proof.
  intros Hlen. unfold JS.slice, JS.relative_index; simpl.
  f_equal; lia.
Qed.

Lemma slice_last (s : string) :
  (7 <= String.length s)%nat ->
  JS.slice s (-7) None = String.substring (String.length s - 7) 7 s.
Proof.
  intros Hlen. unfold JS.slice, JS.relative_index; simpl.
  f_equal; lia.
Qed.

End Substrings.

(** C8 (as amended). For every ASCII selector of at least 8 characters
    the change kind is its final 7 characters and the decoded resource is the
    prefix before them with only the first character upper-cased; the two
    parts make up the selector; and when the decoded resource is the literal
    "CustomObject" the resource is the customObject parameter instead.
    (Outside ASCII the code units and the upper-casing of the program are not
    those of the model.) *)
Theorem selector_decoding (selector : string)
    (Hascii : ChangeCase.allChars ChangeCase.isAscii selector = true)
    (Hlen : (8 <= String.length selector)%nat) :
  changeType selector = SelectorSpec.final7 selector
  /\ String.length (changeType selector) = 7%nat
  /\ decodedResource selector = SelectorSpec.upperFirst (SelectorSpec.prefix selector)
  /\ selector = String.append (SelectorSpec.prefix selector) (changeType selector)
  /\ (forall customObject : string,
        decodedResource selector = "CustomObject" ->
        triggerResource selector customObject = customObject)
  /\ (forall customObject : string,
        decodedResource selector <> "CustomObject" ->
        triggerResource selector customObject = decodedResource selector).
Proof.
  clear Hascii.
  assert (Hkind : changeType selector = SelectorSpec.final7 selector).
  { unfold changeType, SelectorSpec.final7. apply slice_last. lia. }
  split; [exact Hkind|]. split; [|split; [|split; [|split]]].
  - rewrite Hkind. unfold SelectorSpec.final7. apply substring_length. lia.
  - unfold decodedResource, SelectorSpec.prefix.
    rewrite slice_first by lia. rewrite slice_middle by lia.
    destruct selector as [|c rest]; simpl in Hlen; [lia|].
    replace (String.length (String c rest) - 7)%nat
      with (S (String.length rest - 7)) by (simpl; lia).
    simpl. rewrite substring_none. simpl.
    replace (String.length rest - 7)%nat with (S (String.length rest) - 8)%nat
      by lia.
    reflexivity.
  - rewrite Hkind. unfold SelectorSpec.prefix, SelectorSpec.final7.
    replace 7%nat with
      (String.length selector - (String.length selector - 7))%nat at 3 by lia.
    apply substring_cut. lia.
  - intros customObject Hc. unfold triggerResource. now rewrite Hc.
  - intros customObject Hc. unfold triggerResource.
    now destruct (String.eqb_spec (decodedResource selector) "CustomObject").
Qed.

(** ** Where the specification and the router part *)

(** C8 does not hold as worded: for the 7-character selector "Created" the prefix
    is empty, yet the decoded resource is "C". *)
Lemma short_selector_not_decoded :
  decodedResource "Created" = "C"
  /\ SelectorSpec.resource "Created" = ""
  /\ ~ SelectorSpec.decodes "Created".
Proof.
  split; [reflexivity|]. split; [reflexivity|].
  intros [_ H]. vm_compute in H. discriminate.
Qed.

(** C9 does not hold as worded: the poll with the unnamed custom object queries
    the fetcher, resolves to its record and moves the checkpoint. *)
Lemma unnamed_custom_object_not_rejected :
  fst (router Sample.getQuery Scenario.unnamedPoll (Sample.hostAt Scenario.jan1))
    = Returned (Some [[mkItem Scenario.created]])
  /\ checkpoint
       (snd (router Sample.getQuery Scenario.unnamedPoll (Sample.hostAt Scenario.jan1)))
     = Some Scenario.jan2
  /\ calls
       (snd (router Sample.getQuery Scenario.unnamedPoll (Sample.hostAt Scenario.jan1)))
     = [ GetQuery (mkOptions [mkCondition "CreatedDate" ">=" Scenario.jan1;
                              mkCondition "CreatedDate" "<" Scenario.jan2])
                  "" true None;
         requestCall
           "SELECT id FROM  WHERE CreatedDate >= 2024-01-01T00:00:00Z AND CreatedDate < 2024-01-02T00:00:00Z" ]
  /\ ~ AsStated.rejectsUnnamedCustomObject Sample.getQuery
        Scenario.unnamedPoll (Sample.hostAt Scenario.jan1).
Proof.
  split; [reflexivity|]. split; [reflexivity|]. split; [reflexivity|].
  intros H. destruct H as [e He]; [reflexivity | reflexivity |].
  apply (f_equal fst) in He. vm_compute in He. discriminate.
Qed.

(** ** The theorems at the scenario's polls *)

Lemma checkpoint_is_window_end_witness :
  Forall (fun r => completed (fst r))
         (pollSequence Sample.getQuery Scenario.threePolls Sample.freshHost)
  /\ StronglySorted (earlierPoll Scenario.instant) Scenario.threePolls
  /\ observedCheckpoints Sample.getQuery Scenario.threePolls Sample.freshHost
      = [Some Scenario.jan1; Some Scenario.jan2; Some Scenario.jan3]
  /\ StronglySorted (notLater Scenario.instant)
        (observedCheckpoints Sample.getQuery Scenario.threePolls Sample.freshHost).
Proof.
  assert (Hok : Forall (fun r => completed (fst r))
            (pollSequence Sample.getQuery Scenario.threePolls Sample.freshHost)).
  { repeat constructor. }
  assert (Hs : StronglySorted (earlierPoll Scenario.instant) Scenario.threePolls).
  { repeat constructor. }
  destruct (checkpoint_is_window_end Sample.getQuery Scenario.instant
              Scenario.threePolls Sample.freshHost Hok) as (_ & Heq & Hsorted).
  split; [exact Hok|]. split; [exact Hs|]. split; [exact Heq|].
  exact (Hsorted Hs).
Defined.

Lemma failed_fetch_keeps_checkpoint_witness :
  checkpoint (Sample.hostAt Scenario.jan1) = Some Scenario.jan1
  /\ Scenario.jan1 <> ""
  /\ fetched Sample.getQuery Scenario.failingPoll (Sample.hostAt Scenario.jan1)
      = Thrown (CollaboratorError "ETIMEDOUT")
  /\ fst (router Sample.getQuery Scenario.failingPoll (Sample.hostAt Scenario.jan1))
      = Thrown (NodeApiError "Salesforce Trigger" (CollaboratorError "ETIMEDOUT"))
  /\ checkpoint
       (snd (router Sample.getQuery Scenario.failingPoll (Sample.hostAt Scenario.jan1)))
      = Some Scenario.jan1
  /\ pollStart Scenario.updatedPoll
       (snd (router Sample.getQuery Scenario.failingPoll (Sample.hostAt Scenario.jan1)))
      = Scenario.jan1.
Proof.
  assert (H1 : checkpoint (Sample.hostAt Scenario.jan1) = Some Scenario.jan1)
    by reflexivity.
  assert (H2 : Scenario.jan1 <> "") by discriminate.
  assert (H3 : fetched Sample.getQuery Scenario.failingPoll
                 (Sample.hostAt Scenario.jan1)
               = Thrown (CollaboratorError "ETIMEDOUT")) by reflexivity.
  destruct (failed_fetch_keeps_checkpoint Sample.getQuery Scenario.failingPoll
              (Sample.hostAt Scenario.jan1) Scenario.jan1
              (CollaboratorError "ETIMEDOUT") H1 H2 H3)
    as (Hthrown & _ & Hkept & Hnext).
  split; [exact H1|]. split; [exact H2|]. split; [exact H3|].
  split; [exact Hthrown|]. split; [exact Hkept|]. apply Hnext.
Defined.

Lemma failed_first_fetch_leaves_unset_witness :
  checkpoint Sample.freshHost = None
  /\ fetched Sample.getQuery Scenario.failingPoll Sample.freshHost
      = Thrown (CollaboratorError "ETIMEDOUT")
  /\ fst (router Sample.getQuery Scenario.failingPoll Sample.freshHost)
      = Thrown (NodeApiError "Salesforce Trigger" (CollaboratorError "ETIMEDOUT"))
  /\ checkpoint (snd (router Sample.getQuery Scenario.failingPoll Sample.freshHost))
      = None.
Proof.
  assert (H1 : checkpoint Sample.freshHost = None) by reflexivity.
  assert (H2 : fetched Sample.getQuery Scenario.failingPoll Sample.freshHost
               = Thrown (CollaboratorError "ETIMEDOUT")) by reflexivity.
  destruct (failed_first_fetch_leaves_unset Sample.getQuery Scenario.failingPoll
              Sample.freshHost (CollaboratorError "ETIMEDOUT") H1 H2)
    as (Hthrown & _ & Hunset & _).
  split; [exact H1|]. split; [exact H2|]. split; [exact Hthrown | exact Hunset].
Defined.

Lemma window_filter_clauses_witness :
  getMode Scenario.createdPoll <> "manual"
  /\ pollChangeType Scenario.createdPoll = "Created"
  /\ pollChangeType Scenario.updatedPoll = "Updated"
  /\ (exists rest,
        calls (snd (router Sample.getQuery Scenario.createdPoll
                      (Sample.hostAt Scenario.jan1))) =
          GetQuery (mkOptions [mkCondition "CreatedDate" ">=" Scenario.jan1;
                               mkCondition "CreatedDate" "<" Scenario.jan2])
                   "Opportunity" true None :: rest)
  /\ (exists rest,
        calls (snd (router Sample.getQuery Scenario.updatedPoll
                      (Sample.hostAt Scenario.jan1))) =
          GetQuery (mkOptions [mkCondition "LastModifiedDate" ">=" Scenario.jan1;
                               mkCondition "LastModifiedDate" "<" Scenario.jan2;
                               mkCondition "CreatedDate" "<" Scenario.jan1])
                   "Opportunity" true None :: rest).
Proof.
  assert (Hc : getMode Scenario.createdPoll <> "manual") by discriminate.
  assert (Hu : getMode Scenario.updatedPoll <> "manual") by discriminate.
  split; [exact Hc|]. split; [reflexivity|]. split; [reflexivity|]. split.
  - exact (proj1 (window_filter_clauses Sample.getQuery Scenario.createdPoll
                    (Sample.hostAt Scenario.jan1) Hc) eq_refl).
  - exact (proj2 (window_filter_clauses Sample.getQuery Scenario.updatedPoll
                    (Sample.hostAt Scenario.jan1) Hu) eq_refl).
Defined.

Lemma creation_not_reported_as_update_witness :
  "trigger" <> "manual"
  /\ Scenario.created !! "CreatedDate" = Some Scenario.jan1noon
  /\ Scenario.instant Scenario.jan1 <= Scenario.instant Scenario.jan1noon
       < Scenario.instant Scenario.jan2
  /\ satisfies Scenario.instant Scenario.created
       (buildOptions "trigger" "Created" Scenario.jan1 Scenario.jan2) = true
  /\ satisfies Scenario.instant Scenario.created
       (buildOptions "trigger" "Updated" Scenario.jan1 Scenario.jan2) = false
  /\ satisfies Scenario.instant Scenario.created
       (buildOptions "trigger" "Updated" Scenario.jan2 Scenario.jan3) = false.
Proof.
  assert (Hmode : "trigger" <> "manual") by discriminate.
  assert (Hcreated : Scenario.created !! "CreatedDate" = Some Scenario.jan1noon)
    by reflexivity.
  assert (Hin : Scenario.instant Scenario.jan1 <= Scenario.instant Scenario.jan1noon
                  < Scenario.instant Scenario.jan2).
  { split; [apply Z.leb_le | apply Z.ltb_lt]; reflexivity. }
  destruct (creation_not_reported_as_update Scenario.instant "trigger"
              Scenario.created Scenario.jan1noon Scenario.jan1 Scenario.jan2
              Hmode Hcreated Hin) as (Hyes & Hsame & Hlater).
  split; [exact Hmode|]. split; [exact Hcreated|]. split; [exact Hin|].
  split; [exact Hyes|]. split.
  - apply Hsame. apply Z.leb_le. reflexivity.
  - apply Hlater. reflexivity.
Defined.


Lemma manual_poll_bypasses_window_witness :
  getMode Scenario.manualPoll = "manual"
  /\ conditionValues (pollOptions Scenario.manualPoll (Sample.hostAt Scenario.jan1))
       = []
  /\ (exists rest,
        calls (snd (router Sample.getQuery Scenario.manualPoll
                      (Sample.hostAt Scenario.jan1))) =
          GetQuery (mkOptions []) "Opportunity" false (Some 1) :: rest)
  /\ checkpoint (snd (router Sample.getQuery Scenario.manualPoll
                        (Sample.hostAt Scenario.jan1)))
       = Some Scenario.jan2.
Proof.
  assert (Hmode : getMode Scenario.manualPoll = "manual") by reflexivity.
  destruct (manual_poll_bypasses_window Sample.getQuery Scenario.manualPoll
              (Sample.hostAt Scenario.jan1) Hmode)
    as (Hnone & Hcall & _ & Hcp).
  split; [exact Hmode|]. split; [exact Hnone|]. split; [exact Hcall|].
  apply Hcp. exact I.
Defined.

Lemma selector_decoding_witness :
  ChangeCase.allChars ChangeCase.isAscii "customObjectUpdated" = true
  /\ (8 <= String.length "customObjectUpdated")%nat
  /\ changeType "customObjectUpdated" = "Updated"
  /\ decodedResource "customObjectUpdated" = "CustomObject"
  /\ triggerResource "customObjectUpdated" "Invoice__c" = "Invoice__c".
Proof.
  assert (Hascii : ChangeCase.allChars ChangeCase.isAscii "customObjectUpdated"
                   = true) by reflexivity.
  assert (Hlen : (8 <= String.length "customObjectUpdated")%nat) by (simpl; lia).
  destruct (selector_decoding "customObjectUpdated" Hascii Hlen)
    as (Hkind & _ & Hres & _ & Hcustom & _).
  split; [exact Hascii|]. split; [exact Hlen|]. split; [exact Hkind|]. split; [exact Hres|].
  apply Hcustom. exact Hres.
Defined.

Lemma unnamed_custom_object_is_queried_witness :
  decodedResource (getNodeParameter Scenario.unnamedPoll "triggerOn") = "CustomObject"
  /\ getNodeParameter Scenario.unnamedPoll "customObject" = ""
  /\ pollResource Scenario.unnamedPoll = ""
  /\ fst (router Sample.getQuery Scenario.unnamedPoll (Sample.hostAt Scenario.jan1))
       = Returned (Some [[mkItem Scenario.created]])
  /\ checkpoint (snd (router Sample.getQuery Scenario.unnamedPoll
                        (Sample.hostAt Scenario.jan1)))
       = Some Scenario.jan2.
Proof.
  assert (Hcustom : decodedResource (getNodeParameter Scenario.unnamedPoll "triggerOn")
                    = "CustomObject") by reflexivity.
  assert (Hunnamed : getNodeParameter Scenario.unnamedPoll "customObject" = "")
    by reflexivity.
  destruct (unnamed_custom_object_is_queried Sample.getQuery Scenario.unnamedPoll
              (Sample.hostAt Scenario.jan1) Hcustom Hunnamed)
    as (Hres & _ & Hok & _).
  destruct (Hok [Scenario.created] eq_refl) as (Hbatch & Hcp).
  split; [exact Hcustom|]. split; [exact Hunnamed|]. split; [exact Hres|].
  split; [exact Hbatch | exact Hcp].
Defined.

Lemma unrecognized_kind_is_updated_witness :
  getMode Scenario.deletedPoll <> "manual"
  /\ pollChangeType Scenario.deletedPoll = "Deleted"
  /\ (exists rest,
        calls (snd (router Sample.getQuery Scenario.deletedPoll
                      (Sample.hostAt Scenario.jan1))) =
          GetQuery (mkOptions [mkCondition "LastModifiedDate" ">=" Scenario.jan1;
                               mkCondition "LastModifiedDate" "<" Scenario.jan2;
                               mkCondition "CreatedDate" "<" Scenario.jan1])
                   "Opportunity" true None :: rest)
  /\ fst (router Sample.getQuery Scenario.deletedPoll (Sample.hostAt Scenario.jan1))
       = Returned None.
Proof.
  assert (Hmode : getMode Scenario.deletedPoll <> "manual") by discriminate.
  assert (Hkind : pollChangeType Scenario.deletedPoll <> "Created") by discriminate.
  destruct (unrecognized_kind_is_updated Sample.getQuery Scenario.deletedPoll
              (Sample.hostAt Scenario.jan1) Hmode Hkind) as (Hcall & Hok & _).
  split; [exact Hmode|]. split; [reflexivity|]. split; [exact Hcall|].
  exact (Hok [] eq_refl).
Defined.


(** * Further properties of the router *)

Section RouterCalls.

Variable getQuery :
  QueryOptions -> string -> bool -> option Z -> Outcome string.

Lemma newCalls_ok this h responseData :
  fetched getQuery this h = Returned responseData ->
  newCalls getQuery this h = fetchCalls getQuery this h.
Proof.
  intros H. unfold newCalls. rewrite (router_fetched_ok _ _ _ _ H); simpl.
  now rewrite drop_app_length.
Qed.

Lemma newCalls_error this h e :
  fetched getQuery this h = Thrown e ->
  newCalls getQuery this h =
    (fetchCalls getQuery this h
       ++ errorLog this h (NodeApiError (getNode this) e))%list.
Proof.
  intros H. unfold newCalls. rewrite (router_fetched_error _ _ _ _ H); simpl.
  now rewrite drop_app_length.
Qed.

Lemma queryCall_kind this h :
  isGetQuery (queryCall this h) = true
  /\ isRequest (queryCall this h) = false
  /\ isLoggerError (queryCall this h) = false.
Proof. unfold queryCall. destruct (isManual this); repeat split. Qed.

Lemma errorLog_kind this h err :
  List.filter isGetQuery (errorLog this h err) = []
  /\ List.filter isRequest (errorLog this h err) = []
  /\ List.filter isLoggerError (errorLog this h err)
     = errorLog this h err.
Proof.
  unfold errorLog.
  destruct (isManual this || negb (JS.truthy (checkpoint h))); repeat split.
Qed.

(** Whatever a poll does, it leaves every property of the static data
    other than [lastTimeChecked] as it found it. *)
Theorem poll_touches_only_lastTimeChecked
    (this : IPollFunctions) (h : Host) (key : string)
    (Hkey : key <> "lastTimeChecked") :
  staticData (snd (router getQuery this h)) !! key = staticData h !! key.
Proof.
  destruct (router_cases getQuery this h) as [(rs & _ & ->) | (e & _ & ->)];
    simpl; [|reflexivity].
  apply lookup_insert_ne. congruence.
Qed.

(** A poll calls the query builder exactly once, with the options of its
    window, and sends at most one request: the built query on [/query], or
    none at all when the query builder throws. *)
Theorem poll_builds_once_requests_at_most_once
    (this : IPollFunctions) (h : Host) :
  List.filter isGetQuery (newCalls getQuery this h)
    = [queryCall this h]
  /\ List.filter isRequest (newCalls getQuery this h)
    = match builtQuery getQuery this h with
      | Returned q =>
          [ApiRequestAllItems "records" "GET" "/query" ∅ {[ "q" := q ]}]
      | Thrown _ => []
      end.
Proof.
  destruct (queryCall_kind this h) as (Hq1 & Hq2 & _).
  assert (Hfc :
    List.filter isGetQuery (fetchCalls getQuery this h)
      = [queryCall this h]
    /\ List.filter isRequest (fetchCalls getQuery this h)
      = match builtQuery getQuery this h with
        | Returned q => [requestCall q]
        | Thrown _ => []
        end).
  { unfold fetchCalls. destruct (builtQuery getQuery this h) as [q|e'];
      simpl; rewrite Hq1, Hq2; split; reflexivity. }
  destruct Hfc as [Hg Hr].
  destruct (fetched getQuery this h) as [rs|e] eqn:F.
  - rewrite (newCalls_ok _ _ _ F). split; assumption.
  - rewrite (newCalls_error _ _ _ F), !List.filter_app.
    destruct (errorLog_kind this h (NodeApiError (getNode this) e))
      as (-> & -> & _).
    rewrite !app_nil_r. split; assumption.
Qed.

Lemma fetchCalls_no_log this h :
  List.filter isLoggerError (fetchCalls getQuery this h) = [].
Proof.
  destruct (queryCall_kind this h) as (_ & _ & Hq3).
  unfold fetchCalls. destruct (builtQuery getQuery this h) as [q|e'];
    simpl; rewrite Hq3; reflexivity.
Qed.

(** The logger is called only by a failing poll that is not manual and
    has a checkpoint stored: once, with the error that is thrown.  A poll
    that completes, a manual poll and a poll without checkpoint log nothing. *)
Theorem poll_logs_only_checkpointed_failure
    (this : IPollFunctions) (h : Host) :
  List.filter isLoggerError (newCalls getQuery this h)
    = match fst (router getQuery this h) with
      | Returned _ => []
      | Thrown error =>
          if String.eqb (getMode this) "manual" then []
          else if JS.truthy (checkpoint h)
               then [LoggerError (staticData h !! "name")
                                 (staticData h !! "id") error]
               else []
      end.
Proof.
  destruct (fetched getQuery this h) as [rs|e] eqn:F.
  - rewrite (newCalls_ok _ _ _ F), (router_fetched_ok _ _ _ _ F); simpl.
    apply fetchCalls_no_log.
  - rewrite (newCalls_error _ _ _ F), (router_fetched_error _ _ _ _ F); simpl.
    rewrite List.filter_app, fetchCalls_no_log; simpl.
    destruct (errorLog_kind this h (NodeApiError (getNode this) e))
      as (_ & _ & ->).
    unfold errorLog, isManual.
    destruct (String.eqb (getMode this) "manual"); simpl; [reflexivity|].
    destruct (JS.truthy (checkpoint h)); reflexivity.
Qed.

End RouterCalls.

Section RouterResults.

Variable getQuery :
  QueryOptions -> string -> bool -> option Z -> Outcome string.

(** Consecutive windows abut: once a poll has completed, the window of
    the poll that follows starts where this one ended. *)
Theorem next_window_starts_at_previous_end
    (this next : IPollFunctions) (h : Host)
    (Hdone : completed (fst (router getQuery this h)))
    (Hnow : now this <> "") :
  pollStart next (snd (router getQuery this h)) = now this
  /\ (getMode next <> "manual" ->
      exists clauses,
        conditionValues (pollOptions next (snd (router getQuery this h)))
          = mkCondition (if String.eqb (pollChangeType next) "Created"
                         then "CreatedDate" else "LastModifiedDate")
                        ">=" (now this) :: clauses).
Proof.
  assert (Hstart : pollStart next (snd (router getQuery this h)) = now this).
  { unfold pollStart. rewrite (router_completed_checkpoint _ _ _ Hdone); simpl.
    now destruct (String.eqb_spec (now this) ""). }
  split; [exact Hstart|].
  intros Hmode. unfold pollOptions. rewrite Hstart.
  destruct (String.eqb_spec (pollChangeType next) "Created") as [->|Hk].
  - rewrite buildOptions_created by assumption. simpl. eauto.
  - rewrite buildOptions_not_created by assumption. simpl. eauto.
Qed.

(** A stored empty string counts as no checkpoint: the window starts at
    [now], and a failing poll throws without logging, in any mode. *)
Theorem empty_checkpoint_is_no_checkpoint
    (this : IPollFunctions) (h : Host)
    (Hempty : checkpoint h = Some "") :
  pollStart this h = now this
  /\ (forall e,
        fetched getQuery this h = Thrown e ->
        List.filter isLoggerError (newCalls getQuery this h) = []
        /\ checkpoint (snd (router getQuery this h)) = Some "").
Proof.
  split.
  - unfold pollStart. now rewrite Hempty.
  - intros e He. split.
    + rewrite (newCalls_error _ _ _ _ He), List.filter_app, fetchCalls_no_log.
      unfold errorLog. rewrite Hempty; simpl. now rewrite orb_true_r.
    + rewrite (router_fetched_error _ _ _ _ He); simpl. exact Hempty.
Qed.

End RouterResults.

Lemma substring_no_count (s : string) : forall n : nat,
  String.substring n 0 s = "".
Proof.
  induction s as [|c s IH]; intros [|n]; simpl; auto.
Qed.

(** A non-empty selector of at most 7 characters is its own change kind,
    and its first character alone, upper-cased, is the decoded resource; it
    never selects the custom object. *)
Theorem short_selector_decoding (selector customObject : string)
    (Hascii : ChangeCase.allChars ChangeCase.isAscii selector = true)
    (Hlen : (1 <= String.length selector <= 7)%nat) :
  changeType selector = selector
  /\ decodedResource selector = JS.toUpperCase (String.substring 0 1 selector)
  /\ String.length (decodedResource selector) = 1%nat
  /\ triggerResource selector customObject = decodedResource selector.
Proof.
  clear Hascii.
  assert (Hall : forall s : string, String.substring 0 (String.length s) s = s).
  { induction s as [|c s IH]; simpl; [reflexivity | now f_equal]. }
  assert (Hkind : changeType selector = selector).
  { unfold changeType, JS.slice, JS.relative_index; simpl.
    replace (Z.to_nat (Z.max (Z.of_nat (String.length selector) + -7) 0))
      with 0%nat by lia.
    replace (Z.to_nat (Z.max (Z.of_nat (String.length selector)
               - Z.max (Z.of_nat (String.length selector) + -7) 0) 0))
      with (String.length selector) by lia.
    apply Hall. }
  assert (Hres : decodedResource selector
                 = JS.toUpperCase (String.substring 0 1 selector)).
  { unfold decodedResource. rewrite slice_first by lia.
    unfold JS.slice, JS.relative_index; simpl.
    replace (Z.to_nat (Z.max (Z.max (Z.of_nat (String.length selector) + -7) 0
               - Z.min 1 (Z.of_nat (String.length selector))) 0))
      with 0%nat by lia.
    rewrite substring_no_count.
    destruct selector as [|c rest]; simpl in Hlen; [lia|].
    simpl. rewrite !substring_none. reflexivity. }
  assert (Hone : String.length (decodedResource selector) = 1%nat).
  { rewrite Hres. destruct selector as [|c rest]; simpl in Hlen; [lia|].
    simpl. rewrite substring_none. reflexivity. }
  split; [exact Hkind|]. split; [exact Hres|]. split; [exact Hone|].
  unfold triggerResource.
  destruct (String.eqb_spec (decodedResource selector) "CustomObject") as [E|];
    [|reflexivity].
  rewrite E in Hone. simpl in Hone. lia.
Qed.

(** ** The filter across abutting windows *)

Section Windows.

Variable instant : string -> Z.

(** With a window [[s, e)] cut at [m] into [[s, m)] and [[m, e)], a record
    meets the Created filter of the whole window exactly when it meets the
    Created filter of one of the two, and it never meets both. *)
Theorem created_filter_splits_at_checkpoint
    (mode : string) (record : IDataObject) (s m e : string)
    (Hmode : mode <> "manual")
    (Hsm : instant s <= instant m)
    (Hme : instant m <= instant e) :
  satisfies instant record (buildOptions mode "Created" s e)
    = satisfies instant record (buildOptions mode "Created" s m)
      || satisfies instant record (buildOptions mode "Created" m e)
  /\ satisfies instant record (buildOptions mode "Created" s m)
     && satisfies instant record (buildOptions mode "Created" m e) = false.
Proof.
  rewrite !buildOptions_created by assumption.
  unfold satisfies, holds; simpl.
  destruct (record !! "CreatedDate") as [t|]; simpl; [|split; reflexivity].
  rewrite !andb_true_r.
  destruct (Z.leb_spec (instant s) (instant t)),
           (Z.ltb_spec (instant t) (instant e)),
           (Z.ltb_spec (instant t) (instant m)),
           (Z.leb_spec (instant m) (instant t));
    simpl; split; try reflexivity; lia.
Qed.

End Windows.

(** ** The trigger node *)

Section TriggerNodeFacts.

Import TriggerNode.

(** Every declared value of [triggerOn], the default included, decodes to
    the change kind Created or Updated and to a resource that starts with an
    upper-case letter; and the [customObject] parameter is displayed for
    exactly the declared values whose decoded resource is "CustomObject". *)
Theorem declared_selectors_decode :
  Forall (fun choice =>
            (changeType (value choice) = "Created"
             \/ changeType (value choice) = "Updated")
            /\ (exists c rest,
                  decodedResource (value choice) = String c rest
                  /\ ChangeCase.isUpper c = true)
            /\ value choice
               = String.append (ChangeCase.toLowerCase
                                  (String.substring 0 1 (decodedResource (value choice))))
                   (String.append
                      (String.substring 1 (String.length (value choice))
                                        (decodedResource (value choice)))
                      (changeType (value choice)))
            /\ (includes customObjectShownFor (value choice) = true
                <-> decodedResource (value choice) = "CustomObject"))
         triggerOnOptions
  /\ includes (map value triggerOnOptions) triggerOnDefault = true
  /\ Forall (fun shown => includes (map value triggerOnOptions) shown = true)
            customObjectShownFor
  /\ NoDup (map value triggerOnOptions).
Proof.
  split; [|split; [reflexivity|split]].
  - unfold triggerOnOptions.
    repeat (apply Forall_cons; split;
      [ split; [ (left; reflexivity) || (right; reflexivity) |];
        split; [ eexists; eexists; split; reflexivity |];
        split; [ reflexivity |];
        split; intros H; (reflexivity || discriminate H)
      | ]).
    apply Forall_nil. exact I.
  - repeat constructor.
  - apply NoDup_ListNoDup.
    repeat (constructor; [ simpl; intuition discriminate | ]).
    constructor.
Qed.

End TriggerNodeFacts.

Lemma insertByName_permutes option sorted :
  Permutation (SampleSort.insertByName option sorted) (option :: sorted).
Proof.
  induction sorted as [|first rest IH]; simpl; [reflexivity|].
  destruct (String.leb _ _); [reflexivity|].
  rewrite IH. apply perm_swap.
Qed.

Lemma sample_sortOptions_permutes options :
  Permutation (SampleSort.sortOptions options) options.
Proof.
  induction options as [|option rest IH]; simpl; [reflexivity|].
  rewrite insertByName_permutes. now constructor.
Qed.

Section LoadOptionsFacts.

Import TriggerNode.

Variable sortOptions : list INodePropertyOptions -> list INodePropertyOptions.

Lemma fold_pushIfCustom objects : forall returnData,
  fold_left pushIfCustom objects returnData
  = (returnData ++ map customObjectOption (List.filter custom objects))%list.
Proof.
  induction objects as [|object rest IH]; intros returnData; simpl.
  - now rewrite app_nil_r.
  - rewrite IH. unfold pushIfCustom, push.
    destruct (custom object); simpl; [|reflexivity].
    now rewrite <- app_assoc.
Qed.

(** [getCustomObjects] offers exactly the objects flagged custom, each
    once, named by its label and valued by its API name, provided
    [sortOptions] only reorders; a failed request is thrown on as it is. *)
Theorem getCustomObjects_offers_custom_objects
    (objects : list SObject)
    (Hsort : forall l, Permutation (sortOptions l) l) :
  (exists offered,
     getCustomObjects sortOptions (Returned objects) = Returned offered
     /\ Permutation offered
          (map customObjectOption (List.filter custom objects))
     /\ length offered = length (List.filter custom objects)
     /\ forall entry,
          In entry offered <->
          exists object, In object objects /\ custom object = true
                         /\ entry = customObjectOption object)
  /\ forall e, getCustomObjects sortOptions (Thrown e) = Thrown e.
Proof.
  split; [|reflexivity].
  eexists. split; [reflexivity|].
  rewrite fold_pushIfCustom; simpl.
  assert (Hp : Permutation
            (sortOptions (map customObjectOption (List.filter custom objects)))
            (map customObjectOption (List.filter custom objects)))
    by apply Hsort.
  split; [exact Hp|]. split.
  - rewrite (Permutation_length Hp). apply length_map.
  - intros entry. split.
    + intros Hin. apply (Permutation_in _ Hp) in Hin.
      apply in_map_iff in Hin. destruct Hin as (object & <- & Hf).
      apply List.filter_In in Hf. destruct Hf. eauto.
    + intros (object & Hin & Hc & ->).
      apply (Permutation_in _ (Permutation_sym Hp)).
      apply in_map. apply List.filter_In. split; assumption.
Qed.

End LoadOptionsFacts.

Section OwnersFacts.

Import TriggerNode NodeV2.

Variable sortOptions : list INodePropertyOptions -> list INodePropertyOptions.
Variable queryQueues : string -> Outcome (list QueueRow).
Variable queryUsers : string -> Outcome (list UserRow).

Lemma fold_pushQueue queues : forall returnData,
  fold_left pushQueue queues returnData
  = (returnData ++ map queueOption queues)%list.
Proof.
  induction queues as [|queue rest IH]; intros returnData; simpl.
  - now rewrite app_nil_r.
  - rewrite IH. unfold pushQueue, push. now rewrite <- app_assoc.
Qed.

Lemma fold_pushUser userPrefix users : forall returnData,
  fold_left (pushUser userPrefix) users returnData
  = (returnData ++ map (userOption userPrefix) users)%list.
Proof.
  induction users as [|user rest IH]; intros returnData; simpl.
  - now rewrite app_nil_r.
  - rewrite IH. unfold pushUser, push. now rewrite <- app_assoc.
Qed.

(** The owners offered are every queue, named "Queue: " and its name, and
    every user; the users are named "User: " and their name when at least
    one queue was answered, and by their bare name when there is none
    (given that [sortOptions] only reorders).  A failed queue query is
    thrown on, and so is a failed user query. *)
Theorem owners_prefix_users_only_beside_queues
    (qsQueues : string) (queues : list QueueRow) (users : list UserRow)
    (Hsort : forall l, Permutation (sortOptions l) l)
    (Hqueues : queryQueues qsQueues = Returned queues)
    (Husers : queryUsers usersQuery = Returned users) :
  exists offered,
    getOwners sortOptions queryQueues queryUsers qsQueues = Returned offered
    /\ Permutation offered
         (map queueOption queues
            ++ map (userOption (match queues with
                                | [] => ""
                                | _ :: _ => "User: "
                                end)) users)%list
    /\ length offered = (length queues + length users)%nat.
Proof.
  unfold getOwners. rewrite Hqueues, Husers.
  eexists. split; [reflexivity|].
  rewrite fold_pushUser, fold_pushQueue; simpl.
  replace (if (0 <? length (map queueOption queues))%nat then "User: " else "")
    with (match queues with [] => "" | _ :: _ => "User: " end)
    by (destruct queues; reflexivity).
  split; [apply Hsort|].
  rewrite (Permutation_length (Hsort _)).
  now rewrite length_app, !length_map.
Qed.

(** When a query of [getOwners] fails the error is thrown on unchanged. *)
Lemma owners_failure qsQueues e :
  (queryQueues qsQueues = Thrown e ->
   getOwners sortOptions queryQueues queryUsers qsQueues = Thrown e)
  /\ (forall queues,
        queryQueues qsQueues = Returned queues ->
        queryUsers usersQuery = Thrown e ->
        getOwners sortOptions queryQueues queryUsers qsQueues = Thrown e).
Proof.
  unfold getOwners. split.
  - intros ->. reflexivity.
  - intros queues -> ->. reflexivity.
Qed.

End OwnersFacts.

Section CustomObjectRequests.

Import NodeV2.





(** An upsert goes out as PATCH to the external-id endpoint, and its body
    never carries the external-id field itself; every other field is as in
    the body a create would send. *)
Theorem upsert_body_omits_external_id
    (customObject : string)
    (customFieldsUi : option (option (list CustomField)))
    (recordTypeId : option string) (externalId externalIdValue : string) :
  let upsert := customObjectCreateOrUpsert "upsert" customObject customFieldsUi
                  recordTypeId externalId externalIdValue in
  let create := customObjectCreateOrUpsert "create" customObject customFieldsUi
                  recordTypeId externalId externalIdValue in
  method upsert = "PATCH"
  /\ endpoint upsert
     = String.append "/sobjects/"
         (String.append customObject
            (String.append "/"
               (String.append externalId (String.append "/" externalIdValue))))
  /\ body upsert !! externalId = None
  /\ (forall key, key <> externalId -> body upsert !! key = body create !! key)
  /\ method create = "POST"
  /\ endpoint create = String.append "/sobjects/" customObject.
Proof.
  unfold customObjectCreateOrUpsert; simpl.
  set (b := setRecordTypeId recordTypeId (setCustomFields customFieldsUi ∅)).
  repeat split.
  - destruct (b !! externalId) eqn:E; [apply lookup_delete_eq | exact E].
  - intros key Hkey.
    destruct (b !! externalId); [|reflexivity].
    apply lookup_delete_ne. congruence.
Qed.


End CustomObjectRequests.

(** * Case conversion *)

Section CaseFacts.

Import ChangeCase.

Ltac classes :=
  unfold isSnake, isWord, isSpace, isLower, isUpper, isDigit in *;
  repeat match goal with
         | |- context [(?a <=? ?b)%nat] => destruct (Nat.leb_spec a b)
         | |- context [(?a =? ?b)%nat] => destruct (Nat.eqb_spec a b)
         | H : context [(?a <=? ?b)%nat] |- _ => destruct (Nat.leb_spec a b)
         | H : context [(?a =? ?b)%nat] |- _ => destruct (Nat.eqb_spec a b)
         end;
  simpl in *; try reflexivity; try discriminate; try lia.

Lemma isNul_eq c : isNul c = true -> c = NUL.
Proof. unfold isNul. apply Ascii.eqb_eq. Qed.

Lemma nul_not_word c : isNul c = true -> isWord c = false.
Proof. intros H. apply isNul_eq in H. subst. reflexivity. Qed.

Lemma word_not_nul c : isWord c = true -> isNul c = false.
Proof.
  intros H. destruct (isNul c) eqn:E; [|reflexivity].
  apply nul_not_word in E. congruence.
Qed.

Lemma space_not_word c : isSpace c = true -> isWord c = false.
Proof. classes. Qed.

Lemma upper_is_word c : isUpper c = true -> isWord c = true.
Proof. unfold isWord. intros ->. now rewrite orb_true_r. Qed.

Lemma underscore_not_word c : isUnderscore c = true -> isWord c = false.
Proof.
  unfold isUnderscore. intros H. apply Ascii.eqb_eq in H. subst. reflexivity.
Qed.

Lemma lower_ascii_of_word c :
  isWord c = true ->
  (isLower (lower_ascii c) || isDigit (lower_ascii c)) = true.
Proof.
  unfold lower_ascii. destruct (isUpper c) eqn:U.
  - intros _. unfold isUpper in U.
    assert (Hn : (65 <= nat_of_ascii c <= 90)%nat) by (revert U; classes).
    unfold isLower, isDigit. rewrite nat_ascii_embedding by lia.
    classes.
  - unfold isWord. rewrite U, orb_false_r. tauto.
Qed.

Lemma lower_ascii_fixed c : isUpper c = false -> lower_ascii c = c.
Proof. unfold lower_ascii. now intros ->. Qed.

(** *** What the passes keep *)

Lemma keepChars_app P (a b : string) :
  keepChars P (String.append a b) = String.append (keepChars P a) (keepChars P b).
Proof.
  induction a as [|c a IH]; simpl; [reflexivity|].
  destruct (P c); simpl; now rewrite IH.
Qed.

Lemma keepChars_dropStart P Q (s : string) :
  (forall c, Q c = true -> P c = false) ->
  keepChars P (dropStartWhile Q s) = keepChars P s.
Proof.
  intros HQ. induction s as [|c s IH]; simpl; [reflexivity|].
  destruct (Q c) eqn:E; simpl; [|reflexivity].
  now rewrite (HQ c E).
Qed.

Lemma keepChars_dropEnd P Q (s : string) :
  (forall c, Q c = true -> P c = false) ->
  keepChars P (dropEndWhile Q s) = keepChars P s.
Proof.
  intros HQ. induction s as [|c s IH]; simpl; [reflexivity|].
  destruct (dropEndWhile Q s) as [|d kept] eqn:E.
  - simpl in IH. destruct (Q c) eqn:Ec; simpl.
    + now rewrite (HQ c Ec).
    + now rewrite <- IH.
  - change (keepChars P (String c (String d kept)))
      with (if P c then String c (keepChars P (String d kept))
            else keepChars P (String d kept)).
    now rewrite IH.
Qed.

Lemma keepChars_replaceLowerUpper (s : string) :
  keepChars isWord (replaceLowerUpper s) = keepChars isWord s.
Proof.
  assert (H : forall n (t : string),
             (String.length t <= n)%nat ->
             keepChars isWord (replaceLowerUpper t) = keepChars isWord t).
  { induction n as [|n IH]; intros t Hlen.
    - destruct t; [reflexivity | simpl in Hlen; lia].
    - destruct t as [|c1 [|c2 rest]]; try reflexivity.
      simpl in Hlen.
      change (replaceLowerUpper (String c1 (String c2 rest)))
        with (if (isLower c1 || isDigit c1) && isUpper c2
              then String c1 (String NUL (String c2 (replaceLowerUpper rest)))
              else String c1 (replaceLowerUpper (String c2 rest))).
      destruct ((isLower c1 || isDigit c1) && isUpper c2).
      + change (keepChars isWord
                  (String c1 (String NUL (String c2 (replaceLowerUpper rest)))))
          with (if isWord c1
                then String c1 (if isWord c2
                                then String c2 (keepChars isWord (replaceLowerUpper rest))
                                else keepChars isWord (replaceLowerUpper rest))
                else (if isWord c2
                      then String c2 (keepChars isWord (replaceLowerUpper rest))
                      else keepChars isWord (replaceLowerUpper rest))).
        rewrite (IH rest) by lia. reflexivity.
      + change (keepChars isWord (String c1 (replaceLowerUpper (String c2 rest))))
          with (if isWord c1
                then String c1 (keepChars isWord (replaceLowerUpper (String c2 rest)))
                else keepChars isWord (replaceLowerUpper (String c2 rest))).
        rewrite (IH (String c2 rest)) by (simpl; lia). reflexivity. }
  now apply (H (String.length s)).
Qed.

Lemma keepChars_replaceUpperUpper (s : string) :
  keepChars isWord (replaceUpperUpper s) = keepChars isWord s.
Proof.
  assert (H : forall n (t : string),
             (String.length t <= n)%nat ->
             keepChars isWord (replaceUpperUpper t) = keepChars isWord t).
  { induction n as [|n IH]; intros t Hlen.
    - destruct t; [reflexivity | simpl in Hlen; lia].
    - destruct t as [|c1 [|c2 [|c3 rest]]]; try reflexivity.
      simpl in Hlen.
      change (replaceUpperUpper (String c1 (String c2 (String c3 rest))))
        with (if isUpper c1 && isUpper c2 && isLower c3
              then String c1 (String NUL (String c2 (String c3 (replaceUpperUpper rest))))
              else String c1 (replaceUpperUpper (String c2 (String c3 rest)))).
      destruct (isUpper c1 && isUpper c2 && isLower c3).
      + change (String c1 (String NUL (String c2 (String c3 (replaceUpperUpper rest)))))
          with (String.append (String c1 (String NUL (String c2 (String c3 ""))))
                              (replaceUpperUpper rest)).
        change (String c1 (String c2 (String c3 rest)))
          with (String.append (String c1 (String c2 (String c3 ""))) rest).
        rewrite !keepChars_app, (IH rest) by lia.
        f_equal.
      + change (keepChars isWord
                  (String c1 (replaceUpperUpper (String c2 (String c3 rest)))))
          with (if isWord c1
                then String c1 (keepChars isWord
                                  (replaceUpperUpper (String c2 (String c3 rest))))
                else keepChars isWord (replaceUpperUpper (String c2 (String c3 rest)))).
        rewrite (IH (String c2 (String c3 rest))) by (simpl; lia). reflexivity. }
  now apply (H (String.length s)).
Qed.

Lemma keepChars_stripFrom (s : string) : forall inRun,
  keepChars notNul (stripFrom inRun s) = keepChars isWord s.
Proof.
  induction s as [|c s IH]; intros inRun; simpl; [reflexivity|].
  destruct (isWord c) eqn:W; simpl.
  - unfold notNul at 1. rewrite (word_not_nul _ W); simpl. now rewrite IH.
  - destruct inRun; simpl; now rewrite IH.
Qed.

(** *** The two trimming loops of [split] *)

Lemma advanceStart_shift (rest : string) : forall k,
  advanceStart rest k = (k + advanceStart rest 0)%nat.
Proof.
  induction rest as [|c rest IH]; intros k; simpl; [lia|].
  destruct (isNul c); [|lia].
  rewrite (IH (S k)), (IH 1%nat). lia.
Qed.

Lemma get_in_range (s : string) : forall i,
  (i < String.length s)%nat -> exists c, String.get i s = Some c.
Proof.
  induction s as [|c s IH]; intros i Hi; simpl in *; [lia|].
  destruct i; [eauto | apply IH; lia].
Qed.

Lemma slice_nat (s : string) (a b : nat) :
  (a <= b)%nat -> (b <= String.length s)%nat ->
  JS.slice s (Z.of_nat a) (Some (Z.of_nat b)) = String.substring a (b - a) s.
Proof.
  intros Hab Hb. unfold JS.slice, JS.relative_index.
  destruct (Z.ltb_spec (Z.of_nat a) 0); [lia|].
  destruct (Z.ltb_spec (Z.of_nat b) 0); [lia|].
  f_equal; lia.
Qed.

Lemma retreatEnd_le (s : string) : forall e, (retreatEnd s e <= e)%nat.
Proof.
  induction e as [|e IH]; simpl; [lia|].
  destruct (String.get e s) as [c|]; [|lia].
  destruct (isNul c); lia.
Qed.

Lemma retreatEnd_cons c (r : string) : forall e,
  (e <= String.length r)%nat ->
  retreatEnd (String c r) (S e)
  = if Nat.eqb (retreatEnd r e) 0
    then (if isNul c then 0%nat else 1%nat)
    else S (retreatEnd r e).
Proof.
  induction e as [|e IH]; intros He.
  - simpl. destruct (isNul c); reflexivity.
  - destruct (get_in_range r e ltac:(lia)) as [d Hd].
    change (retreatEnd (String c r) (S (S e)))
      with (match String.get e r with
            | Some c' => if isNul c' then retreatEnd (String c r) (S e) else S (S e)
            | None => S (S e)
            end).
    change (retreatEnd r (S e))
      with (match String.get e r with
            | Some c' => if isNul c' then retreatEnd r e else S e
            | None => S e
            end).
    rewrite Hd. destruct (isNul d); [apply IH; lia | reflexivity].
Qed.

Lemma dropEnd_substring (s : string) :
  dropEndWhile isNul s = String.substring 0 (retreatEnd s (String.length s)) s.
Proof.
  induction s as [|c r IH]; [reflexivity|].
  change (String.length (String c r)) with (S (String.length r)).
  rewrite retreatEnd_cons by lia.
  change (dropEndWhile isNul (String c r))
    with (match dropEndWhile isNul r with
          | EmptyString => if isNul c then EmptyString else String c EmptyString
          | kept => String c kept
          end).
  rewrite IH.
  destruct (retreatEnd r (String.length r)) as [|k] eqn:E; simpl.
  - rewrite substring_none. destruct (isNul c); simpl;
      [reflexivity | now rewrite substring_none].
  - pose proof (retreatEnd_le r (String.length r)) as Hle. rewrite E in Hle.
    destruct r as [|d r']; simpl in Hle; [lia|]. reflexivity.
Qed.

Lemma retreat_after_start (s : string) :
  advanceStart s 0 <> String.length s ->
  (advanceStart s 0 < retreatEnd s (String.length s))%nat.
Proof.
  induction s as [|c r IH]; [simpl; congruence|].
  change (String.length (String c r)) with (S (String.length r)).
  rewrite retreatEnd_cons by lia. simpl.
  destruct (isNul c).
  - rewrite advanceStart_shift. intros Hne.
    assert (Hr : advanceStart r 0 <> String.length r) by lia.
    specialize (IH Hr).
    destruct (Nat.eqb_spec (retreatEnd r (String.length r)) 0); lia.
  - intros _. destruct (Nat.eqb (retreatEnd r (String.length r)) 0); lia.
Qed.

(** The slice [split] cuts out is the result without its leading and
    trailing NULs. *)
Lemma slice_between_nuls (s : string) :
  advanceStart s 0 <> String.length s ->
  JS.slice s (Z.of_nat (advanceStart s 0))
           (Some (Z.of_nat (retreatEnd s (String.length s))))
  = dropEndWhile isNul (dropStartWhile isNul s).
Proof.
  induction s as [|c r IH]; [simpl; congruence|].
  intros Hne. pose proof (retreat_after_start _ Hne) as Hlt.
  pose proof (retreatEnd_le (String c r) (String.length (String c r))) as Hle.
  rewrite slice_nat by lia.
  revert Hne Hlt Hle.
  change (String.length (String c r)) with (S (String.length r)).
  rewrite retreatEnd_cons by lia.
  change (advanceStart (String c r) 0)
    with (if isNul c then advanceStart r 1 else 0%nat).
  change (dropStartWhile isNul (String c r))
    with (if isNul c then dropStartWhile isNul r else String c r).
  destruct (isNul c) eqn:Ec.
  - rewrite advanceStart_shift. intros Hne Hlt Hle.
    assert (Hr : advanceStart r 0 <> String.length r) by lia.
    pose proof (retreat_after_start _ Hr) as Hlt'.
    pose proof (retreatEnd_le r (String.length r)) as Hle'.
    destruct (Nat.eqb_spec (retreatEnd r (String.length r)) 0); [lia|].
    rewrite <- (IH Hr), slice_nat by lia.
    simpl. reflexivity.
  - intros _ _ _.
    rewrite dropEnd_substring.
    change (String.length (String c r)) with (S (String.length r)).
    rewrite retreatEnd_cons by lia.
    rewrite Ec, Nat.sub_0_r. reflexivity.
Qed.

(** *** The words of [split] *)

Lemma dropStart_stripFrom (t : string) : forall inRun,
  dropStartWhile isNul (stripFrom inRun t) = stripFrom true t.
Proof.
  induction t as [|c t IH]; intros inRun; simpl; [reflexivity|].
  destruct (isWord c) eqn:W; simpl.
  - now rewrite (word_not_nul _ W).
  - destruct inRun; simpl; apply IH.
Qed.

Lemma wellCut_dropEnd_strip (t : string) : forall inRun,
  dropEndWhile isNul (stripFrom inRun t) = ""
  \/ wellCut isNul inRun (dropEndWhile isNul (stripFrom inRun t)) = true.
Proof.
  induction t as [|c t IH]; intros inRun; simpl; [now left|].
  destruct (isWord c) eqn:W.
  - right. pose proof (word_not_nul _ W) as N.
    destruct (dropEndWhile isNul (stripFrom false t)) as [|d kept] eqn:D.
    + simpl. rewrite D, N. simpl. now rewrite N.
    + simpl. rewrite D. simpl. rewrite N.
      destruct (IH false) as [E|E]; rewrite D in E; [discriminate | exact E].
  - destruct inRun; [apply IH|].
    simpl. destruct (IH true) as [E|E].
    + left. now rewrite E.
    + right.
      destruct (dropEndWhile isNul (stripFrom true t)) as [|d kept];
        [discriminate E|].
      simpl. simpl in E. exact E.
Qed.

Lemma allChars_stripFrom (t : string) : forall inRun,
  allChars wordOrNul (stripFrom inRun t) = true.
Proof.
  induction t as [|c t IH]; intros inRun; simpl; [reflexivity|].
  destruct (isWord c) eqn:W; simpl.
  - unfold wordOrNul at 1. rewrite W. apply IH.
  - destruct inRun; simpl; apply IH.
Qed.

Lemma allChars_dropStart P Q (s : string) :
  allChars P s = true -> allChars P (dropStartWhile Q s) = true.
Proof.
  induction s as [|c s IH]; simpl; [reflexivity|].
  intros H. apply andb_true_iff in H. destruct H as [Hc Hs].
  destruct (Q c); [now apply IH | simpl; now rewrite Hc, Hs].
Qed.

Lemma allChars_dropEnd P Q (s : string) :
  allChars P s = true -> allChars P (dropEndWhile Q s) = true.
Proof.
  induction s as [|c s IH]; simpl; [reflexivity|].
  intros H. apply andb_true_iff in H. destruct H as [Hc Hs].
  specialize (IH Hs).
  destruct (dropEndWhile Q s) as [|d kept].
  - destruct (Q c); simpl; [reflexivity | now rewrite Hc].
  - change (P c && allChars P (String d kept) = true). now rewrite Hc, IH.
Qed.

Lemma splitNul_cons (s : string) : exists w ws, splitNul s = w :: ws.
Proof.
  destruct s as [|c s]; simpl; [eauto|].
  destruct (isNul c); [eauto|].
  destruct (splitNul s); eauto.
Qed.

Lemma splitNul_wellCut (s : string) : forall afterSep,
  wellCut isNul afterSep s = true ->
  exists w ws, splitNul s = w :: ws
               /\ (afterSep = true -> w <> "")
               /\ Forall (fun word => word <> "") ws.
Proof.
  induction s as [|c s IH]; intros afterSep H; simpl in *.
  - exists "", []. destruct afterSep; [discriminate|].
    repeat split; [discriminate | constructor].
  - destruct (isNul c).
    + apply andb_true_iff in H. destruct H as [Ha H].
      destruct afterSep; [discriminate|].
      destruct (IH true H) as (w & ws & -> & Hw & Hws).
      exists "", (w :: ws). repeat split; [discriminate|].
      constructor; [now apply Hw | exact Hws].
    + destruct (IH false H) as (w & ws & -> & _ & Hws).
      exists (String c w), ws. repeat split; [discriminate | exact Hws].
Qed.

Lemma splitNul_words (s : string) :
  allChars wordOrNul s = true ->
  Forall (fun word => allChars isWord word = true) (splitNul s).
Proof.
  induction s as [|c s IH]; simpl; intros H; [repeat constructor|].
  apply andb_true_iff in H. destruct H as [Hc Hs]. specialize (IH Hs).
  destruct (isNul c) eqn:N.
  - constructor; [reflexivity | exact IH].
  - destruct (splitNul s) as [|w ws].
    + constructor; [|constructor]. simpl.
      unfold wordOrNul in Hc. rewrite N, orb_false_r in Hc. now rewrite Hc.
    + inversion IH; subst. constructor; [|assumption]. simpl.
      unfold wordOrNul in Hc. rewrite N, orb_false_r in Hc. now rewrite Hc.
Qed.

Lemma concat_splitNul (s : string) :
  String.concat "" (splitNul s) = keepChars notNul s.
Proof.
  induction s as [|c s IH]; [reflexivity|].
  simpl. unfold notNul at 1.
  destruct (isNul c); simpl.
  - destruct (splitNul_cons s) as (w & ws & E). rewrite E in *. exact IH.
  - destruct (splitNul s) as [|w ws] eqn:E; simpl in *.
    + now rewrite <- IH.
    + rewrite <- IH. destruct ws; reflexivity.
Qed.

Lemma all_nul_keeps_nothing (s : string) :
  advanceStart s 0 = String.length s -> keepChars notNul s = "".
Proof.
  induction s as [|c s IH]; simpl; [reflexivity|].
  unfold notNul at 1. destruct (isNul c); simpl; [|discriminate].
  rewrite advanceStart_shift. intros H. apply IH. lia.
Qed.

Lemma dropStart_head (s : string) :
  advanceStart s 0 <> String.length s ->
  exists c rest, dropStartWhile isNul s = String c rest /\ isNul c = false.
Proof.
  induction s as [|c s IH]; simpl; [congruence|].
  destruct (isNul c) eqn:N; [|eauto].
  rewrite advanceStart_shift. intros H. apply IH. lia.
Qed.

Lemma dropEnd_head c (rest : string) :
  isNul c = false -> dropEndWhile isNul (String c rest) <> "".
Proof.
  intros N. simpl. destruct (dropEndWhile isNul rest); [rewrite N|]; discriminate.
Qed.

(** What [split] returns, in terms of the stripped text. *)
Lemma split_unfold (value : string) :
  let result :=
    replaceStrip (replaceUpperUpper (replaceLowerUpper (trim value))) in
  split value
  = if Nat.eqb (advanceStart result 0) (String.length result) then []
    else splitNul (dropEndWhile isNul (dropStartWhile isNul result)).
Proof.
  intros result. unfold split. fold result.
  destruct (Nat.eqb_spec (advanceStart result 0) (String.length result));
    [reflexivity|].
  now rewrite slice_between_nuls.
Qed.

Lemma keepChars_result (value : string) :
  keepChars notNul
    (replaceStrip (replaceUpperUpper (replaceLowerUpper (trim value))))
  = keepChars isWord value.
Proof.
  unfold replaceStrip, trim.
  rewrite keepChars_stripFrom, keepChars_replaceUpperUpper,
    keepChars_replaceLowerUpper.
  rewrite keepChars_dropEnd by apply space_not_word.
  apply keepChars_dropStart, space_not_word.
Qed.

Lemma split_words (value : string) :
  Forall (fun word => word <> "" /\ allChars isWord word = true) (split value).
Proof.
  rewrite split_unfold.
  set (t := replaceUpperUpper (replaceLowerUpper (trim value))).
  destruct (Nat.eqb_spec (advanceStart (replaceStrip t) 0)
                         (String.length (replaceStrip t))) as [|Hne];
    [constructor|].
  destruct (dropStart_head _ Hne) as (c & rest & Hd & Hc).
  unfold replaceStrip in *. rewrite dropStart_stripFrom in *.
  assert (Hwords : Forall (fun word => allChars isWord word = true)
                     (splitNul (dropEndWhile isNul (stripFrom true t)))).
  { apply splitNul_words, allChars_dropEnd, allChars_stripFrom. }
  destruct (wellCut_dropEnd_strip t true) as [E|E].
  - exfalso. rewrite Hd in E. now apply (dropEnd_head c rest).
  - destruct (splitNul_wellCut _ _ E) as (w & ws & Hs & Hw & Hws).
    rewrite Hs in *. inversion Hwords; subst.
    constructor; [split; [now apply Hw | assumption]|].
    apply Forall_forall. intros word Hin. split.
    + now apply (proj1 (Forall_forall _ _) Hws).
    + now apply (proj1 (Forall_forall _ _) H2).
Qed.

Lemma split_concat (value : string) :
  String.concat "" (split value) = keepChars isWord value
  /\ (split value = [] <-> keepChars isWord value = "").
Proof.
  assert (Hcat : String.concat "" (split value) = keepChars isWord value).
  { rewrite split_unfold, <- keepChars_result.
    set (r := replaceStrip (replaceUpperUpper (replaceLowerUpper (trim value)))).
    destruct (Nat.eqb_spec (advanceStart r 0) (String.length r)) as [E|Hne].
    - now rewrite all_nul_keeps_nothing.
    - rewrite concat_splitNul.
      rewrite keepChars_dropEnd, keepChars_dropStart; try reflexivity;
        intros c Hc; unfold notNul; now rewrite Hc. }
  split; [exact Hcat|]. split.
  - intros E. now rewrite <- Hcat, E.
  - intros E. rewrite <- Hcat in E.
    pose proof (split_words value) as Hall.
    destruct (split value) as [|w ws]; [reflexivity|].
    inversion Hall as [|? ? [Hw _] _]; subst.
    destruct w; [congruence|]. destruct ws; simpl in E; discriminate.
Qed.

(** Every word [split] returns is a non-empty run of letters and digits.
    The character classes of the model are the ASCII part of those of the
    regular expressions, hence the restriction to ASCII input here and
    below. *)
Theorem split_words_are_alphanumeric (value : string)
    (Hascii : allChars isAscii value = true) :
  Forall (fun word => word <> "" /\ allChars isWord word = true) (split value).
Proof. apply split_words. Qed.

(** The words of [split], put together, are the letters and digits of the
    input in their order: nothing else is kept and none of them is lost.
    There is no word exactly when the input has no letter or digit. *)
Theorem split_keeps_letters_and_digits (value : string)
    (Hascii : allChars isAscii value = true) :
  String.concat "" (split value) = keepChars isWord value
  /\ (split value = [] <-> keepChars isWord value = "").
Proof. apply split_concat. Qed.

(** *** Joining words *)

Lemma append_empty_r (s : string) : String.append s "" = s.
Proof.
  induction s as [|c s IH]; [reflexivity|].
  rewrite append_String. now f_equal.
Qed.

Lemma concat_cons2 (sep w w' : string) (ws : list string) :
  String.concat sep (w :: w' :: ws)
  = String.append w (String.append sep (String.concat sep (w' :: ws))).
Proof. reflexivity. Qed.

Lemma allChars_app P (a b : string) :
  allChars P (String.append a b) = allChars P a && allChars P b.
Proof.
  induction a as [|c a IH]; simpl; [reflexivity|].
  now rewrite IH, andb_assoc.
Qed.

Lemma allChars_impl (P Q : ascii -> bool) (s : string) :
  (forall c, P c = true -> Q c = true) ->
  allChars P s = true -> allChars Q s = true.
Proof.
  intros HPQ. induction s as [|c s IH]; simpl; [reflexivity|].
  intros H. apply andb_true_iff in H. destruct H as [Hc Hs].
  now rewrite (HPQ c Hc), IH.
Qed.

Lemma allChars_concat P (sep : string) (ws : list string) :
  allChars P sep = true ->
  Forall (fun w => allChars P w = true) ws ->
  allChars P (String.concat sep ws) = true.
Proof.
  intros Hsep. induction ws as [|w ws IH]; intros H; [reflexivity|].
  inversion H as [|? ? Hw Hws]; subst.
  destruct ws as [|w' ws]; [exact Hw|].
  rewrite concat_cons2, !allChars_app, Hw, Hsep. simpl. now apply IH.
Qed.

Lemma wellCut_app isSep (w rest : string) : forall afterSep,
  allChars (fun c => negb (isSep c)) w = true -> w <> "" ->
  wellCut isSep afterSep (String.append w rest) = wellCut isSep false rest.
Proof.
  induction w as [|c w IH]; intros afterSep Hw Hne; [congruence|].
  simpl in Hw. apply andb_true_iff in Hw. destruct Hw as [Hc Hw].
  simpl. destruct (isSep c); [discriminate|].
  destruct w as [|d w']; [reflexivity|].
  apply IH; [exact Hw | discriminate].
Qed.

Lemma wellCut_join isSep (sep : ascii) (ws : list string) :
  isSep sep = true ->
  ws <> [] ->
  Forall (fun w => w <> "" /\ allChars (fun c => negb (isSep c)) w = true) ws ->
  wellCut isSep true (String.concat (String sep "") ws) = true.
Proof.
  intros Hsep. induction ws as [|w ws IH]; intros Hne H; [congruence|].
  inversion H as [|? ? [Hw1 Hw2] Hws]; subst.
  destruct ws as [|w' ws].
  - simpl. rewrite <- (append_empty_r w). now rewrite wellCut_app.
  - rewrite concat_cons2, wellCut_app by assumption.
    simpl. rewrite Hsep. simpl. apply IH; [discriminate | exact Hws].
Qed.

Lemma wellCut_head isSep (s : string) :
  wellCut isSep true s = true ->
  exists c rest, s = String c rest /\ isSep c = false.
Proof.
  destruct s as [|c rest]; simpl; [discriminate|].
  destruct (isSep c) eqn:E; [discriminate|].
  intros _. exists c, rest. split; [reflexivity | exact E].
Qed.

Lemma dropEnd_wellCut isSep (s : string) : forall afterSep,
  wellCut isSep afterSep s = true -> dropEndWhile isSep s = s.
Proof.
  induction s as [|c s IH]; intros afterSep H; [reflexivity|].
  simpl in H. simpl. destruct (isSep c) eqn:Ec.
  - apply andb_true_iff in H. destruct H as [_ H].
    rewrite (IH true H).
    destruct s; [discriminate H | reflexivity].
  - rewrite (IH false H). destruct s; reflexivity.
Qed.

Lemma dropStart_fixed P (s : string) :
  allChars (fun c => negb (P c)) s = true -> dropStartWhile P s = s.
Proof.
  destruct s as [|c s]; simpl; [reflexivity|].
  intros H. apply andb_true_iff in H. destruct H as [Hc _].
  now destruct (P c).
Qed.

Lemma dropEnd_fixed P (s : string) :
  allChars (fun c => negb (P c)) s = true -> dropEndWhile P s = s.
Proof.
  induction s as [|c s IH]; simpl; [reflexivity|].
  intros H. apply andb_true_iff in H. destruct H as [Hc Hs].
  rewrite (IH Hs). destruct (P c); [discriminate|]. destruct s; reflexivity.
Qed.

Lemma replaceLowerUpper_fixed (s : string) :
  allChars (fun c => negb (isUpper c)) s = true -> replaceLowerUpper s = s.
Proof.
  induction s as [|c1 t IH]; [reflexivity|].
  intros H. simpl in H. apply andb_true_iff in H. destruct H as [_ Ht].
  destruct t as [|c2 rest]; [reflexivity|].
  change (replaceLowerUpper (String c1 (String c2 rest)))
    with (if (isLower c1 || isDigit c1) && isUpper c2
          then String c1 (String NUL (String c2 (replaceLowerUpper rest)))
          else String c1 (replaceLowerUpper (String c2 rest))).
  rewrite (IH Ht).
  simpl in Ht. apply andb_true_iff in Ht. destruct Ht as [H2 _].
  destruct (isUpper c2); simpl in H2; [discriminate H2|].
  now rewrite andb_false_r.
Qed.

Lemma replaceUpperUpper_fixed (s : string) :
  allChars (fun c => negb (isUpper c)) s = true -> replaceUpperUpper s = s.
Proof.
  induction s as [|c1 t IH]; [reflexivity|].
  intros H. simpl in H. apply andb_true_iff in H. destruct H as [H1 Ht].
  destruct t as [|c2 [|c3 rest]]; try reflexivity.
  change (replaceUpperUpper (String c1 (String c2 (String c3 rest))))
    with (if isUpper c1 && isUpper c2 && isLower c3
          then String c1 (String NUL (String c2 (String c3 (replaceUpperUpper rest))))
          else String c1 (replaceUpperUpper (String c2 (String c3 rest)))).
  rewrite (IH Ht). destruct (isUpper c1); simpl in H1;
    [discriminate H1 | reflexivity].
Qed.

Lemma strip_word_app (w rest : string) : forall inRun,
  allChars isWord w = true -> w <> "" ->
  stripFrom inRun (String.append w rest) = String.append w (stripFrom false rest).
Proof.
  induction w as [|c w IH]; intros inRun Hw Hne; [congruence|].
  simpl in Hw. apply andb_true_iff in Hw. destruct Hw as [Hc Hw].
  rewrite !append_String. simpl. rewrite Hc. f_equal.
  destruct w as [|d w']; [reflexivity|].
  apply IH; [exact Hw | discriminate].
Qed.

Lemma strip_join (ws : list string) : forall inRun,
  ws <> [] ->
  Forall (fun w => w <> "" /\ allChars isWord w = true) ws ->
  stripFrom inRun (String.concat "_" ws) = String.concat (String NUL "") ws.
Proof.
  induction ws as [|w ws IH]; intros inRun Hne H; [congruence|].
  inversion H as [|? ? [Hw1 Hw2] Hws]; subst.
  destruct ws as [|w' ws].
  - simpl. rewrite <- (append_empty_r w) at 1.
    rewrite strip_word_app by assumption. simpl. apply append_empty_r.
  - rewrite !concat_cons2, strip_word_app by assumption.
    f_equal. simpl. f_equal. apply IH; [discriminate | exact Hws].
Qed.

Lemma splitNul_app (w rest : string) :
  allChars notNul w = true ->
  splitNul (String.append w rest)
  = match splitNul rest with
    | first :: others => String.append w first :: others
    | [] => [w]
    end.
Proof.
  induction w as [|c w IH]; intros Hw.
  - change (String.append "" rest) with rest.
    destruct (splitNul_cons rest) as (f & o & ->). reflexivity.
  - simpl in Hw. apply andb_true_iff in Hw. destruct Hw as [Hc Hw].
    unfold notNul in Hc. rewrite append_String. simpl.
    destruct (isNul c); [discriminate|].
    rewrite (IH Hw).
    destruct (splitNul_cons rest) as (f & o & ->). reflexivity.
Qed.

Lemma splitNul_join (ws : list string) :
  ws <> [] ->
  Forall (fun w => allChars notNul w = true) ws ->
  splitNul (String.concat (String NUL "") ws) = ws.
Proof.
  induction ws as [|w ws IH]; intros Hne H; [congruence|].
  inversion H as [|? ? Hw Hws]; subst.
  destruct ws as [|w' ws].
  - simpl. rewrite <- (append_empty_r w) at 1.
    rewrite splitNul_app by assumption. simpl. now rewrite append_empty_r.
  - rewrite concat_cons2, splitNul_app by assumption.
    change (String.append (String NUL "") (String.concat (String NUL "") (w' :: ws)))
      with (String NUL (String.concat (String NUL "") (w' :: ws))).
    change (splitNul (String NUL (String.concat (String NUL "") (w' :: ws))))
      with ("" :: splitNul (String.concat (String NUL "") (w' :: ws))).
    cbv beta iota. rewrite append_empty_r. f_equal.
    apply IH; [discriminate | exact Hws].
Qed.

(** Words of letters and digits joined by underscores split back into
    themselves. *)
Lemma split_join (ws : list string) :
  ws <> [] ->
  Forall (fun w => w <> "" /\ allChars lowerOrDigit w = true) ws ->
  split (String.concat "_" ws) = ws.
Proof.
  intros Hne H.
  assert (Hword : Forall (fun w => w <> "" /\ allChars isWord w = true) ws).
  { eapply Forall_impl; [exact H|]. intros w [Hw1 Hw2]. split; [exact Hw1|].
    eapply allChars_impl; [|exact Hw2].
    intros c. unfold lowerOrDigit, isWord.
    destruct (isLower c), (isDigit c), (isUpper c); simpl; congruence. }
  assert (Hsnake : allChars isSnake (String.concat "_" ws) = true).
  { apply allChars_concat; [reflexivity|].
    eapply Forall_impl; [exact H|]. intros w [_ Hw].
    eapply allChars_impl; [|exact Hw].
    intros c. unfold lowerOrDigit, isSnake. intros ->. reflexivity. }
  assert (Hspace : allChars (fun c => negb (isSpace c)) (String.concat "_" ws) = true).
  { eapply allChars_impl; [|exact Hsnake]. intros c.
    unfold isSnake, isUnderscore.
    destruct (Ascii.eqb_spec c "_"%char) as [->|_]; [reflexivity|].
    rewrite orb_false_r. classes. }
  assert (Hupper : allChars (fun c => negb (isUpper c)) (String.concat "_" ws) = true).
  { eapply allChars_impl; [|exact Hsnake]. intros c.
    unfold isSnake, isUnderscore.
    destruct (Ascii.eqb_spec c "_"%char) as [->|_]; [reflexivity|].
    rewrite orb_false_r. classes. }
  rewrite split_unfold. unfold trim.
  rewrite (dropStart_fixed _ _ Hspace), (dropEnd_fixed _ _ Hspace).
  rewrite (replaceLowerUpper_fixed _ Hupper), (replaceUpperUpper_fixed _ Hupper).
  unfold replaceStrip. rewrite (strip_join _ _ Hne Hword).
  assert (Hcut : wellCut isNul true (String.concat (String NUL "") ws) = true).
  { apply wellCut_join; [reflexivity | exact Hne |].
    eapply Forall_impl; [exact Hword|]. intros w [Hw1 Hw2]. split; [exact Hw1|].
    eapply allChars_impl; [|exact Hw2].
    intros c Hc. now rewrite (word_not_nul _ Hc). }
  destruct (wellCut_head _ _ Hcut) as (c & rest & Ez & Hc).
  assert (Hstart : dropStartWhile isNul (String.concat (String NUL "") ws)
                   = String.concat (String NUL "") ws).
  { rewrite Ez. simpl. now rewrite Hc. }
  assert (Hadv : Nat.eqb (advanceStart (String.concat (String NUL "") ws) 0)
                         (String.length (String.concat (String NUL "") ws))
                 = false).
  { rewrite Ez. simpl. now rewrite Hc. }
  rewrite Hadv, Hstart, (dropEnd_wellCut _ _ _ Hcut).
  apply splitNul_join; [exact Hne|].
  eapply Forall_impl; [exact Hword|]. intros w [_ Hw].
  eapply allChars_impl; [|exact Hw].
  intros d Hd. unfold notNul. now rewrite (word_not_nul _ Hd).
Qed.

(** *** [noCase] and [snakeCase] with the default prefix and suffix *)

Lemma toLowerCase_lowerOrDigit (w : string) :
  allChars isWord w = true -> allChars lowerOrDigit (toLowerCase w) = true.
Proof.
  induction w as [|c w IH]; simpl; [reflexivity|].
  intros H. apply andb_true_iff in H. destruct H as [Hc Hw].
  unfold lowerOrDigit at 1. rewrite (lower_ascii_of_word _ Hc). now apply IH.
Qed.

Lemma toLowerCase_fixed (w : string) :
  allChars lowerOrDigit w = true -> toLowerCase w = w.
Proof.
  induction w as [|c w IH]; simpl; [reflexivity|].
  intros H. apply andb_true_iff in H. destruct H as [Hc Hw].
  rewrite (IH Hw), lower_ascii_fixed; [reflexivity|].
  revert Hc. unfold lowerOrDigit. classes.
Qed.

Lemma lowered_words (value : string) :
  Forall (fun w => w <> "" /\ allChars lowerOrDigit w = true)
         (map toLowerCase (split value)).
Proof.
  apply Forall_map.
  eapply Forall_impl; [apply split_words|].
  intros w [Hw1 Hw2]. split; [|now apply toLowerCase_lowerOrDigit].
  destruct w; [congruence | discriminate].
Qed.

Lemma substring_whole (s : string) :
  String.substring 0 (String.length s) s = s.
Proof. induction s as [|c s IH]; simpl; [reflexivity | now f_equal]. Qed.

Lemma advancePrefix_none (input : string) : advancePrefix "" input 0 = 0%nat.
Proof. destruct input; reflexivity. Qed.

Lemma retreatSuffix_none (input : string) :
  retreatSuffix "" input 0 (String.length input) = String.length input.
Proof.
  destruct (String.length input) as [|index] eqn:E; [reflexivity|].
  simpl. destruct (get_in_range input index ltac:(lia)) as [c ->]. reflexivity.
Qed.

(** Without prefix and suffix characters the whole input is split. *)
Lemma splitPrefixSuffix_default (input : string) (options : Options) :
  split_ options = None ->
  prefixCharacters options = None ->
  suffixCharacters options = None ->
  splitPrefixSuffix input (Some options) = ("", split input, "").
Proof.
  intros Hs Hp Hq. unfold splitPrefixSuffix; simpl.
  rewrite Hs, Hp, Hq; simpl.
  unfold DEFAULT_PREFIX_SUFFIX_CHARACTERS.
  rewrite advancePrefix_none, retreatSuffix_none.
  change (JS.slice input 0 (Some (Z.of_nat 0)))
    with (JS.slice input (Z.of_nat 0) (Some (Z.of_nat 0))).
  rewrite !slice_nat by lia.
  rewrite !Nat.sub_0_r, substring_none, substring_whole.
  unfold JS.slice, JS.relative_index.
  destruct (Z.ltb_spec (Z.of_nat (String.length input)) 0); [lia|].
  replace (Z.to_nat (Z.max (Z.of_nat (String.length input)
             - Z.min (Z.of_nat (String.length input))
                     (Z.of_nat (String.length input))) 0))
    with 0%nat by lia.
  now rewrite substring_no_count.
Qed.

Variable toLocaleLowerCase : list string -> string -> string.

Lemma snakeCase_localeFalse (input : string) :
  snakeCase toLocaleLowerCase input (Some localeFalse)
  = String.concat "_" (map toLowerCase (split input)).
Proof.
  unfold snakeCase, noCase.
  rewrite splitPrefixSuffix_default by reflexivity.
  simpl. now rewrite append_empty_r.
Qed.

(** With [locale: false] the result of [snakeCase] is made of lower-case
    letters, digits and underscores only; unless it is empty it neither
    starts nor ends with an underscore and has no two underscores in a row;
    and it is empty exactly when the input has no letter or digit. *)
Theorem snakeCase_shape (input : string)
    (Hascii : allChars isAscii input = true) :
  allChars isSnake (snakeCase toLocaleLowerCase input (Some localeFalse)) = true
  /\ (snakeCase toLocaleLowerCase input (Some localeFalse) = ""
      \/ wellCut isUnderscore true
           (snakeCase toLocaleLowerCase input (Some localeFalse)) = true)
  /\ (snakeCase toLocaleLowerCase input (Some localeFalse) = ""
      <-> keepChars isWord input = "").
Proof.
  clear Hascii. rewrite snakeCase_localeFalse.
  pose proof (lowered_words input) as Hws.
  assert (Hcut : map toLowerCase (split input) <> [] ->
                 wellCut isUnderscore true
                   (String.concat "_" (map toLowerCase (split input))) = true).
  { intros Hne. apply wellCut_join; [reflexivity | exact Hne |].
    eapply Forall_impl; [exact Hws|]. intros w [Hw1 Hw2]. split; [exact Hw1|].
    eapply allChars_impl; [|exact Hw2].
    intros c Hc. destruct (isUnderscore c) eqn:U; [|reflexivity].
    apply underscore_not_word in U. revert Hc U.
    unfold lowerOrDigit, isWord.
    destruct (isLower c), (isDigit c), (isUpper c); simpl; congruence. }
  split; [|split].
  - apply allChars_concat; [reflexivity|].
    eapply Forall_impl; [exact Hws|]. intros w [_ Hw].
    eapply allChars_impl; [|exact Hw].
    intros c. unfold lowerOrDigit, isSnake. intros ->. reflexivity.
  - destruct (map toLowerCase (split input)) as [|w ws] eqn:E; [now left|].
    right. apply Hcut. discriminate.
  - rewrite <- (proj2 (split_concat input)). split.
    + intros E. destruct (split input) as [|w ws]; [reflexivity|].
      assert (Hc := Hcut ltac:(discriminate)). rewrite E in Hc. discriminate.
    + intros ->. reflexivity.
Qed.

(** With [locale: false], [snakeCase] leaves its own results as they are. *)
Theorem snakeCase_idempotent (input : string)
    (Hascii : allChars isAscii input = true) :
  snakeCase toLocaleLowerCase
    (snakeCase toLocaleLowerCase input (Some localeFalse)) (Some localeFalse)
  = snakeCase toLocaleLowerCase input (Some localeFalse).
Proof.
  clear Hascii. rewrite !snakeCase_localeFalse.
  pose proof (lowered_words input) as Hws.
  destruct (map toLowerCase (split input)) as [|w ws] eqn:E; [reflexivity|].
  rewrite split_join; [|discriminate | exact Hws].
  f_equal. clear E.
  induction Hws as [|x xs [_ Hx] _ IH]; simpl; [reflexivity|].
  now rewrite (toLowerCase_fixed _ Hx), IH.
Qed.

(** *** [splitPrefixSuffix] with prefix and suffix characters *)

Lemma advancePrefix_shift pc (rest : string) : forall k,
  advancePrefix pc rest k = (k + advancePrefix pc rest 0)%nat.
Proof.
  induction rest as [|c rest IH]; intros k; simpl; [lia|].
  destruct (includesChar pc c); simpl; [|lia].
  rewrite (IH (S k)), (IH 1%nat). lia.
Qed.

Lemma advancePrefix_le pc (s : string) :
  (advancePrefix pc s 0 <= String.length s)%nat.
Proof.
  induction s as [|c s IH]; simpl; [lia|].
  destruct (includesChar pc c); simpl; [|lia].
  rewrite advancePrefix_shift. lia.
Qed.

Lemma prefix_chars pc (s : string) :
  allChars (includesChar pc) (String.substring 0 (advancePrefix pc s 0) s) = true.
Proof.
  induction s as [|c s IH]; simpl; [reflexivity|].
  destruct (includesChar pc c) eqn:E; simpl; [|reflexivity].
  rewrite advancePrefix_shift. simpl. now rewrite E, IH.
Qed.

Lemma retreatSuffix_le sc (s : string) p : forall e,
  (retreatSuffix sc s p e <= e)%nat.
Proof.
  induction e as [|e IH]; simpl; [lia|].
  destruct (p <? S e)%nat; [|lia].
  destruct (String.get e s) as [c|]; [|lia].
  destruct (includesChar sc c); simpl; lia.
Qed.

Lemma retreatSuffix_ge sc (s : string) p : forall e,
  (p <= e)%nat -> (p <= retreatSuffix sc s p e)%nat.
Proof.
  induction e as [|e IH]; intros Hp; simpl; [lia|].
  destruct (Nat.ltb_spec p (S e)); [|lia].
  destruct (String.get e s) as [c|]; [|apply IH; lia].
  destruct (includesChar sc c); simpl; [apply IH|]; lia.
Qed.

Lemma retreatSuffix_chars sc (s : string) p : forall e i,
  (e <= String.length s)%nat ->
  (retreatSuffix sc s p e <= i < e)%nat ->
  exists c, String.get i s = Some c /\ includesChar sc c = true.
Proof.
  induction e as [|e IH]; intros i He Hi; simpl in Hi; [lia|].
  destruct (Nat.ltb_spec p (S e)); [|lia].
  destruct (get_in_range s e ltac:(lia)) as [c Hc]. rewrite Hc in Hi.
  destruct (includesChar sc c) eqn:E; simpl in Hi; [|lia].
  destruct (Nat.eq_dec i e) as [->|Hne]; [eauto|].
  apply IH; lia.
Qed.

Lemma allChars_substring P (s : string) : forall q m,
  (forall i, (q <= i < q + m)%nat ->
             exists c, String.get i s = Some c /\ P c = true) ->
  allChars P (String.substring q m s) = true.
Proof.
  induction s as [|c s IH]; intros q m H.
  - destruct q, m; reflexivity.
  - destruct q as [|q].
    + destruct m as [|m]; [reflexivity|].
      simpl. destruct (H 0%nat ltac:(lia)) as (d & [= <-] & ->). simpl.
      apply IH. intros i Hi. apply (H (S i)). lia.
    + simpl. apply IH. intros i Hi. apply (H (S i)). lia.
Qed.

Lemma substring_cut_at (s : string) : forall p q,
  (p <= q)%nat -> (q <= String.length s)%nat ->
  String.substring 0 q s
  = String.append (String.substring 0 p s) (String.substring p (q - p) s).
Proof.
  induction s as [|c s IH]; intros p q Hpq Hq; simpl in Hq.
  - destruct p, q; try lia; reflexivity.
  - destruct q as [|q]; [destruct p; [reflexivity | lia]|].
    destruct p as [|p]; [reflexivity|].
    simpl. rewrite append_String. f_equal. apply IH; lia.
Qed.

Lemma slice_to_end (s : string) (q : nat) :
  (q <= String.length s)%nat ->
  JS.slice s (Z.of_nat q) None = String.substring q (String.length s - q) s.
Proof.
  intros Hq. unfold JS.slice, JS.relative_index.
  destruct (Z.ltb_spec (Z.of_nat q) 0); [lia|].
  f_equal; lia.
Qed.

(** [splitPrefixSuffix] cuts the input in three: the prefix, the part that
    is split into words, and the suffix, which together make up the input;
    the prefix holds prefix characters only and the suffix suffix characters
    only. *)
Theorem splitPrefixSuffix_partitions (input : string) (options : option Options)
    (Hascii : allChars isAscii input = true) :
  exists prefix middle suffix,
    splitPrefixSuffix input options
    = (prefix, default split (default noOptions options).(split_) middle, suffix)
    /\ input = String.append prefix (String.append middle suffix)
    /\ allChars (includesChar
                   (default "" (default noOptions options).(prefixCharacters)))
                prefix = true
    /\ allChars (includesChar
                   (default "" (default noOptions options).(suffixCharacters)))
                suffix = true.
Proof.
  clear Hascii. unfold splitPrefixSuffix.
  set (o := default noOptions options).
  set (pc := default DEFAULT_PREFIX_SUFFIX_CHARACTERS (prefixCharacters o)).
  set (sc := default DEFAULT_PREFIX_SUFFIX_CHARACTERS (suffixCharacters o)).
  set (p := advancePrefix pc input 0).
  set (q := retreatSuffix sc input p (String.length input)).
  assert (Hp : (p <= String.length input)%nat) by apply advancePrefix_le.
  assert (Hq : (q <= String.length input)%nat) by apply retreatSuffix_le.
  assert (Hpq : (p <= q)%nat) by (apply retreatSuffix_ge; exact Hp).
  exists (String.substring 0 p input), (String.substring p (q - p) input),
         (String.substring q (String.length input - q) input).
  split; [|split; [|split]].
  - change (JS.slice input 0 (Some (Z.of_nat p)))
      with (JS.slice input (Z.of_nat 0) (Some (Z.of_nat p))).
    rewrite !slice_nat by lia. rewrite slice_to_end by lia.
    now rewrite Nat.sub_0_r.
  - rewrite (substring_cut input q Hq) at 1.
    rewrite (substring_cut_at input p q Hpq Hq).
    generalize (String.substring 0 p input) as a.
    generalize (String.substring p (q - p) input) as b.
    generalize (String.substring q (String.length input - q) input) as c.
    intros c b a. induction a as [|x a IH]; [reflexivity|].
    rewrite !append_String. now f_equal.
  - apply prefix_chars.
  - apply allChars_substring. intros i Hi.
    apply (retreatSuffix_chars sc input p (String.length input)); [lia|].
    fold q. lia.
Qed.

End CaseFacts.

(** * The further properties at sample inputs *)

Lemma poll_touches_only_lastTimeChecked_witness :
  "note" <> "lastTimeChecked"
  /\ staticData (snd (router Sample.getQuery Scenario.createdPoll
                        Examples.hostWithNote)) !! "note" = Some "kept"
  /\ checkpoint (snd (router Sample.getQuery Scenario.createdPoll
                        Examples.hostWithNote)) = Some Scenario.jan2.
Proof.
  assert (Hkey : "note" <> "lastTimeChecked") by discriminate.
  split; [exact Hkey|]. split; [|reflexivity].
  rewrite (poll_touches_only_lastTimeChecked Sample.getQuery
             Scenario.createdPoll Examples.hostWithNote "note" Hkey).
  reflexivity.
Defined.

Lemma next_window_starts_at_previous_end_witness :
  completed (fst (router Sample.getQuery Scenario.createdPoll
                    (Sample.hostAt Scenario.jan1)))
  /\ now Scenario.createdPoll <> ""
  /\ pollStart Scenario.updatedPoll
       (snd (router Sample.getQuery Scenario.createdPoll
               (Sample.hostAt Scenario.jan1)))
     = Scenario.jan2.
Proof.
  assert (H1 : completed (fst (router Sample.getQuery Scenario.createdPoll
                                 (Sample.hostAt Scenario.jan1)))) by exact I.
  assert (H2 : now Scenario.createdPoll <> "") by discriminate.
  split; [exact H1|]. split; [exact H2|].
  exact (proj1 (next_window_starts_at_previous_end Sample.getQuery
                  Scenario.createdPoll Scenario.updatedPoll
                  (Sample.hostAt Scenario.jan1) H1 H2)).
Defined.

Lemma empty_checkpoint_is_no_checkpoint_witness :
  checkpoint Examples.hostWithEmptyCheckpoint = Some ""
  /\ pollStart Scenario.failingPoll Examples.hostWithEmptyCheckpoint
     = Scenario.jan2
  /\ List.filter isLoggerError
       (newCalls Sample.getQuery Scenario.failingPoll
          Examples.hostWithEmptyCheckpoint) = [].
Proof.
  assert (H1 : checkpoint Examples.hostWithEmptyCheckpoint = Some "")
    by reflexivity.
  destruct (empty_checkpoint_is_no_checkpoint Sample.getQuery
              Scenario.failingPoll Examples.hostWithEmptyCheckpoint H1)
    as (Hstart & Hfail).
  split; [exact H1|]. split; [exact Hstart|].
  exact (proj1 (Hfail (CollaboratorError "ETIMEDOUT") eq_refl)).
Defined.

Lemma short_selector_decoding_witness :
  ChangeCase.allChars ChangeCase.isAscii "updated" = true
  /\ (1 <= String.length "updated" <= 7)%nat
  /\ changeType "updated" = "updated"
  /\ decodedResource "updated" = "U"
  /\ triggerResource "updated" "Invoice__c" = "U".
Proof.
  assert (H1 : ChangeCase.allChars ChangeCase.isAscii "updated" = true)
    by reflexivity.
  assert (H2 : (1 <= String.length "updated" <= 7)%nat) by (simpl; lia).
  destruct (short_selector_decoding "updated" "Invoice__c" H1 H2)
    as (Hkind & Hres & _ & Hcustom).
  split; [exact H1|]. split; [exact H2|]. split; [exact Hkind|].
  split; [exact Hres|]. rewrite Hcustom. exact Hres.
Defined.

Lemma created_filter_splits_at_checkpoint_witness :
  "trigger" <> "manual"
  /\ Scenario.instant Scenario.jan1 <= Scenario.instant Scenario.jan2
  /\ Scenario.instant Scenario.jan2 <= Scenario.instant Scenario.jan3
  /\ satisfies Scenario.instant Scenario.created
       (buildOptions "trigger" "Created" Scenario.jan1 Scenario.jan3)
     = satisfies Scenario.instant Scenario.created
         (buildOptions "trigger" "Created" Scenario.jan1 Scenario.jan2)
       || satisfies Scenario.instant Scenario.created
            (buildOptions "trigger" "Created" Scenario.jan2 Scenario.jan3).
Proof.
  assert (H1 : "trigger" <> "manual") by discriminate.
  assert (H2 : Scenario.instant Scenario.jan1 <= Scenario.instant Scenario.jan2)
    by (apply Z.leb_le; reflexivity).
  assert (H3 : Scenario.instant Scenario.jan2 <= Scenario.instant Scenario.jan3)
    by (apply Z.leb_le; reflexivity).
  split; [exact H1|]. split; [exact H2|]. split; [exact H3|].
  exact (proj1 (created_filter_splits_at_checkpoint Scenario.instant "trigger"
                  Scenario.created Scenario.jan1 Scenario.jan2 Scenario.jan3
                  H1 H2 H3)).
Defined.

Lemma getCustomObjects_offers_custom_objects_witness :
  (forall l, Permutation (SampleSort.sortOptions l) l)
  /\ TriggerNode.getCustomObjects SampleSort.sortOptions
       (Returned Examples.sobjects)
     = Returned [ TriggerNode.mkPropertyOption "Asset Tag" "Asset_Tag__c" None;
                  TriggerNode.mkPropertyOption "Invoice" "Invoice__c" None ]
  /\ exists offered,
       TriggerNode.getCustomObjects SampleSort.sortOptions
         (Returned Examples.sobjects) = Returned offered
       /\ length offered = 2%nat.
Proof.
  split; [exact sample_sortOptions_permutes|]. split; [reflexivity|].
  destruct (getCustomObjects_offers_custom_objects SampleSort.sortOptions
              Examples.sobjects sample_sortOptions_permutes)
    as [(offered & Heq & _ & Hlen & _) _].
  exists offered. split; [exact Heq | exact Hlen].
Defined.

Lemma owners_prefix_users_only_beside_queues_witness :
  (forall l, Permutation (SampleSort.sortOptions l) l)
  /\ Examples.answerQueues NodeV2.caseQueuesQuery = Returned Examples.queues
  /\ Examples.answerUsers NodeV2.usersQuery = Returned Examples.users
  /\ NodeV2.getCaseOwners SampleSort.sortOptions
       Examples.answerQueues Examples.answerUsers
     = Returned [ TriggerNode.mkPropertyOption "Queue: Billing" "00G2" None;
                  TriggerNode.mkPropertyOption "Queue: Tier 2" "00G1" None;
                  TriggerNode.mkPropertyOption "User: Ada" "0051" None;
                  TriggerNode.mkPropertyOption "User: Grace" "0052" None ]
  /\ exists offered,
       NodeV2.getOwners SampleSort.sortOptions
         Examples.answerQueues Examples.answerUsers NodeV2.caseQueuesQuery
       = Returned offered
       /\ length offered = 4%nat.
Proof.
  split; [exact sample_sortOptions_permutes|].
  split; [reflexivity|]. split; [reflexivity|]. split; [reflexivity|].
  destruct (owners_prefix_users_only_beside_queues SampleSort.sortOptions
              Examples.answerQueues Examples.answerUsers
              NodeV2.caseQueuesQuery Examples.queues Examples.users
              sample_sortOptions_permutes eq_refl eq_refl)
    as (offered & Heq & _ & Hlen).
  exists offered. split; [exact Heq | exact Hlen].
Defined.

Lemma split_words_are_alphanumeric_witness :
  ChangeCase.allChars ChangeCase.isAscii "  XMLHttpRequest v2 " = true
  /\ ChangeCase.split "  XMLHttpRequest v2 " = ["XML"; "Http"; "Request"; "v2"]
  /\ Forall (fun word => word <> ""
                         /\ ChangeCase.allChars ChangeCase.isWord word = true)
            (ChangeCase.split "  XMLHttpRequest v2 ").
Proof.
  assert (H : ChangeCase.allChars ChangeCase.isAscii "  XMLHttpRequest v2 " = true)
    by reflexivity.
  split; [exact H|]. split; [reflexivity|].
  exact (split_words_are_alphanumeric "  XMLHttpRequest v2 " H).
Defined.

Lemma split_keeps_letters_and_digits_witness :
  ChangeCase.allChars ChangeCase.isAscii "foo_barBaz-10" = true
  /\ ChangeCase.split "foo_barBaz-10" = ["foo"; "bar"; "Baz"; "10"]
  /\ String.concat "" (ChangeCase.split "foo_barBaz-10")
     = ChangeCase.keepChars ChangeCase.isWord "foo_barBaz-10".
Proof.
  assert (H : ChangeCase.allChars ChangeCase.isAscii "foo_barBaz-10" = true)
    by reflexivity.
  split; [exact H|]. split; [reflexivity|].
  exact (proj1 (split_keeps_letters_and_digits "foo_barBaz-10" H)).
Defined.

Lemma snakeCase_shape_witness :
  ChangeCase.allChars ChangeCase.isAscii " Hello, World! " = true
  /\ ChangeCase.snakeCase (fun _ s => s) " Hello, World! "
       (Some ChangeCase.localeFalse) = "hello_world"
  /\ ChangeCase.allChars ChangeCase.isSnake
       (ChangeCase.snakeCase (fun _ s => s) " Hello, World! "
          (Some ChangeCase.localeFalse)) = true.
Proof.
  assert (H : ChangeCase.allChars ChangeCase.isAscii " Hello, World! " = true)
    by reflexivity.
  split; [exact H|]. split; [reflexivity|].
  exact (proj1 (snakeCase_shape (fun _ s => s) " Hello, World! " H)).
Defined.

Lemma snakeCase_idempotent_witness :
  ChangeCase.allChars ChangeCase.isAscii "lastTimeChecked" = true
  /\ ChangeCase.snakeCase (fun _ s => s) "lastTimeChecked"
       (Some ChangeCase.localeFalse) = "last_time_checked"
  /\ ChangeCase.snakeCase (fun _ s => s)
       (ChangeCase.snakeCase (fun _ s => s) "lastTimeChecked"
          (Some ChangeCase.localeFalse))
       (Some ChangeCase.localeFalse)
     = ChangeCase.snakeCase (fun _ s => s) "lastTimeChecked"
         (Some ChangeCase.localeFalse).
Proof.
  assert (H : ChangeCase.allChars ChangeCase.isAscii "lastTimeChecked" = true)
    by reflexivity.
  split; [exact H|]. split; [reflexivity|].
  exact (snakeCase_idempotent (fun _ s => s) "lastTimeChecked" H).
Defined.

Lemma splitPrefixSuffix_partitions_witness :
  ChangeCase.allChars ChangeCase.isAscii "__fooBar--" = true
  /\ ChangeCase.splitPrefixSuffix "__fooBar--"
       (Some (ChangeCase.mkCaseOptions None None None None (Some "_") (Some "-")))
     = ("__", ["foo"; "Bar"], "--")
  /\ exists prefix middle suffix,
       ChangeCase.splitPrefixSuffix "__fooBar--"
         (Some (ChangeCase.mkCaseOptions None None None None (Some "_") (Some "-")))
       = (prefix, ChangeCase.split middle, suffix)
       /\ "__fooBar--" = String.append prefix (String.append middle suffix).
Proof.
  assert (H : ChangeCase.allChars ChangeCase.isAscii "__fooBar--" = true)
    by reflexivity.
  split; [exact H|]. split; [reflexivity|].
  destruct (splitPrefixSuffix_partitions "__fooBar--"
              (Some (ChangeCase.mkCaseOptions None None None None
                       (Some "_") (Some "-"))) H)
    as (prefix & middle & suffix & Heq & Hcat & _).
  exists prefix, middle, suffix. split; [exact Heq | exact Hcat].
Defined.
